(** * Signal status publisher: a shallow embedding of
    [signal_status_publisher.py] and the properties of its normalisation
    passes, its reconciliation step and its orchestration.

    Records are Python dicts keyed by strings: [gmap string value].  The
    passes of the script mutate the dicts of one list in place and return
    nothing; each row fetched from the database is a dict of its own, so a
    pass is embedded as a function from the list to the list it leaves
    behind.  A pass that raises aborts the whole run, so it is embedded in
    an error monad: [Raise e] stands for the exception unwinding out of the
    pass. *)

From Stdlib Require Import ZArith NArith String Ascii List Lia Bool.
From Stdlib Require Import SpecFloat.
From stdpp Require Import base option list gmap strings pretty.

#[local] Open Scope string_scope.
#[local] Set Warnings "-register-all".

(** ** Exceptions and the error monad *)

Inductive exn : Type :=
| KeyError (key : string)
| TypeError
| ValueError
| AttributeError
| OverflowError
| ConnectionError
| QueryError
| HTTPError.

Inductive result (A : Type) : Type :=
| Ok (a : A)
| Raise (e : exn).
Arguments Ok {A} a.
Arguments Raise {A} e.

#[export] Instance result_ret : MRet result := fun _ a => Ok a.
#[export] Instance result_bind : MBind result := fun _ _ f m =>
  match m with
  | Ok a => f a
  | Raise e => Raise e
  end.

(** [for x in xs: ...] where the body may raise is stdpp's [mapM]: the
    first exception stops the loop. *)

(** A list comprehension with a condition that may raise. *)
Fixpoint filterM {A : Type} (f : A -> result bool) (xs : list A) : result (list A) :=
  match xs with
  | [] => Ok []
  | x :: rest =>
      b ← f x;
      ys ← filterM f rest;
      Ok (if b : bool then x :: ys else ys)
  end.

(** A loop that threads one value through a body that may raise. *)
Fixpoint foldM {A B : Type} (f : B -> A -> result B) (xs : list A) (b : B) : result B :=
  match xs with
  | [] => Ok b
  | x :: rest => b' ← f b x; foldM f rest b'
  end.

(** ** Values *)

(** A naive [datetime.datetime], as pymssql returns for a DATETIME column. *)
Record datetime : Type := DateTime {
  year : N; month : N; day : N;
  hour : N; minute : N; second : N; microsecond : N
}.

(** The invariant Python's [datetime] type enforces on its fields. *)
Definition valid_datetime (d : datetime) : Prop :=
  (1 <= year d <= 9999 /\ 1 <= month d <= 12 /\ 1 <= day d <= 31 /\
   hour d < 24 /\ minute d < 60 /\ second d < 60 /\ microsecond d < 1000000)%N.

(** A finite [decimal.Decimal]: sign, coefficient and exponent, the number
    being [(-1)^sign * coef * 10^exp].  pymssql delivers NUMERIC and DECIMAL
    columns in this type. *)
Record decimal : Type := Decimal {
  dneg : bool; dcoef : N; dexp : Z
}.

(** The Python values the script handles: rows of the database hold
    [None], ints, decimals, strings and datetimes; the JSON of the portal
    holds [None], booleans, ints, floats, strings and objects.  A float is
    a binary64 number, as a JSON number with a fraction or an exponent is
    read, given by its IEEE 754 data: a zero, an infinity, a NaN, or sign,
    mantissa and binary exponent ([spec_float] of the Standard Library). *)
Inductive value : Type :=
| VNone
| VBool (b : bool)
| VInt (z : Z)
| VDec (d : decimal)
| VFloat (f : spec_float)
| VStr (s : string)
| VDateTime (d : datetime)
| VDict (d : gmap string value).

Abbreviation record := (gmap string value).

(** Library behaviour the script relies on but whose details no property
    below depends on.  [float_str] is [str] of a float (the shortest
    digits that read back as the same float); [dict_str] is [str] of a dict
    (Python prints the items in insertion order, which a finite map does
    not record); [int_of_str] is [int] of a string ([None] when it raises
    ValueError); [arrow_get_other] is [arrow.get] on a value that is not a
    datetime (it parses strings and raises on most other values). *)
Record library : Type := Library {
  float_str : spec_float -> string;
  dict_str : gmap string value -> string;
  int_of_str : string -> option Z;
  arrow_get_other : value -> result datetime
}.

(** ** Printing *)

Fixpoint zeros (n : nat) : string :=
  match n with
  | O => ""
  | S n' => String "0" (zeros n')
  end.

(** [format(n, "0{w}d")] for a natural number. *)
Definition zpad (w : nat) (n : N) : string :=
  let s := pretty n in
  zeros (w - String.length s) +:+ s.

(** [str] of an int. *)
Definition int_str (z : Z) : string := pretty z.

(** ["%+d" % z] *)
Definition signed_str (z : Z) : string :=
  if (z <? 0)%Z then pretty z else "+" +:+ pretty z.

(** [Decimal.__str__], scientific notation included. *)
Definition decimal_str (d : decimal) : string :=
  let sign := if dneg d then "-" else "" in
  let digits := pretty (dcoef d) in
  let len := Z.of_nat (String.length digits) in
  let leftdigits := (dexp d + len)%Z in
  let dotplace :=
    if ((dexp d <=? 0) && (-6 <? leftdigits))%Z then leftdigits else 1%Z in
  let intpart :=
    if (dotplace <=? 0)%Z then "0"
    else if (len <=? dotplace)%Z then digits +:+ zeros (Z.to_nat (dotplace - len))
    else substring 0 (Z.to_nat dotplace) digits in
  let fracpart :=
    if (dotplace <=? 0)%Z then "." +:+ zeros (Z.to_nat (- dotplace)) +:+ digits
    else if (len <=? dotplace)%Z then ""
    else "." +:+ substring (Z.to_nat dotplace) (Z.to_nat (len - dotplace)) digits in
  let exp :=
    if (leftdigits =? dotplace)%Z then ""
    else "E" +:+ signed_str (leftdigits - dotplace) in
  sign +:+ intpart +:+ fracpart +:+ exp.

(** [str] of a datetime: [isoformat(sep=" ")]. *)
Definition datetime_str (d : datetime) : string :=
  zpad 4 (year d) +:+ "-" +:+ zpad 2 (month d) +:+ "-" +:+ zpad 2 (day d) +:+ " " +:+
  zpad 2 (hour d) +:+ ":" +:+ zpad 2 (minute d) +:+ ":" +:+ zpad 2 (second d) +:+
  (if (microsecond d =? 0)%N then "" else "." +:+ zpad 6 (microsecond d)).

(** ** Python built-ins on values *)

Section Publisher.

Context (lib : library).

(** [str(v)], which is also what an f-string field [{v}] prints. *)
Definition py_str (v : value) : string :=
  match v with
  | VNone => "None"
  | VBool b => if b then "True" else "False"
  | VInt z => int_str z
  | VDec d => decimal_str d
  | VFloat f => float_str lib f
  | VStr s => s
  | VDateTime d => datetime_str d
  | VDict d => dict_str lib d
  end.

(** The exact value of a finite float, as a signed coefficient and a
    decimal exponent: [m * 2^e] is [m * 5^(-e) * 10^e] when [e] is negative.
    An infinity or a NaN has none. *)
Definition float_exact (f : spec_float) : option (Z * Z) :=
  match f with
  | S754_zero _ => Some (0, 0)%Z
  | S754_finite s m e =>
      let c := if s then Zneg m else Zpos m in
      if (0 <=? e)%Z then Some (c * 2 ^ e, 0)%Z else Some (c * 5 ^ (- e), e)%Z
  | S754_infinity _ | S754_nan => None
  end.

(** Truth value of [v] in a condition; a float counts as false when it
    is a zero, so a NaN counts as true. *)
Definition py_bool (v : value) : bool :=
  match v with
  | VNone => false
  | VBool b => b
  | VInt z => negb (z =? 0)%Z
  | VDec d => negb (dcoef d =? 0)%N
  | VFloat f => match f with
                | S754_zero _ => false
                | _ => true
                end
  | VStr s => negb (String.eqb s "")
  | VDateTime _ => true
  | VDict d => negb (bool_decide (d = ∅))
  end.

(** [int(Decimal)] truncates towards zero. *)
Definition decimal_trunc (d : decimal) : Z :=
  let m := if (0 <=? dexp d)%Z
           then (Z.of_N (dcoef d) * 10 ^ dexp d)%Z
           else (Z.of_N (dcoef d) / 10 ^ (- dexp d))%Z in
  if dneg d then (- m)%Z else m.

(** [int(float)] truncates towards zero and raises on a NaN and on an
    infinity. *)
Definition float_trunc (f : spec_float) : result Z :=
  match f with
  | S754_zero _ => Ok 0%Z
  | S754_finite s m e =>
      let a := if (0 <=? e)%Z then (Zpos m * 2 ^ e)%Z else (Zpos m / 2 ^ (- e))%Z in
      Ok (if s then (- a)%Z else a)
  | S754_nan => Raise ValueError
  | S754_infinity _ => Raise OverflowError
  end.

(** [int(v)] *)
Definition py_int (v : value) : result Z :=
  match v with
  | VBool b => Ok (if b then 1 else 0)%Z
  | VInt z => Ok z
  | VDec d => Ok (decimal_trunc d)
  | VFloat f => float_trunc f
  | VStr s => match int_of_str lib s with
              | Some z => Ok z
              | None => Raise ValueError
              end
  | VNone | VDateTime _ | VDict _ => Raise TypeError
  end.

(** The numbers of Python's numeric tower that occur here, as a signed
    coefficient and a decimal exponent. *)
Definition as_number (v : value) : option (Z * Z) :=
  match v with
  | VBool b => Some (if b then 1 else 0, 0)%Z
  | VInt z => Some (z, 0%Z)
  | VDec d => Some (if dneg d then (- Z.of_N (dcoef d))%Z else Z.of_N (dcoef d), dexp d)
  | VFloat f => float_exact f
  | _ => None
  end.

Definition number_eqb (x y : Z * Z) : bool :=
  let m := Z.min (snd x) (snd y) in
  (fst x * 10 ^ (snd x - m) =? fst y * 10 ^ (snd y - m))%Z.

(** [f == g] on floats: a NaN equals nothing, an infinity only the
    infinity of its sign, and finite floats compare by value, so the two
    zeros are equal. *)
Definition float_eqb (f g : spec_float) : bool :=
  match f, g with
  | S754_nan, _ | _, S754_nan => false
  | S754_infinity s, S754_infinity t => Bool.eqb s t
  | S754_infinity _, _ | _, S754_infinity _ => false
  | _, _ =>
      match float_exact f, float_exact g with
      | Some x, Some y => number_eqb x y
      | _, _ => false
      end
  end.

Definition datetime_eqb (a b : datetime) : bool :=
  ((year a =? year b) && (month a =? month b) && (day a =? day b) &&
   (hour a =? hour b) && (minute a =? minute b) && (second a =? second b) &&
   (microsecond a =? microsecond b))%N.

(** [a == b]: numbers compare by exact value across int, bool, Decimal
    and float, two floats as IEEE 754 has it (a NaN equals nothing), strings
    with strings, dicts key by key; values of unrelated types are unequal. *)
Fixpoint py_eq (a b : value) : bool :=
  match a, b with
  | VNone, VNone => true
  | VStr s, VStr t => String.eqb s t
  | VDateTime d, VDateTime e => datetime_eqb d e
  | VDict d1, VDict d2 =>
      bool_decide (dom d1 = dom d2) &&
      map_fold (fun k v acc =>
                  acc && match d2 !! k with
                         | Some v' => py_eq v v'
                         | None => false
                         end) true d1
  | (VBool _ | VInt _ | VDec _ | VFloat _), (VBool _ | VInt _ | VDec _ | VFloat _) =>
      match a, b with
      | VFloat f, VFloat g => float_eqb f g
      | _, _ =>
          match as_number a, as_number b with
          | Some x, Some y => number_eqb x y
          | _, _ => false
          end
      end
  | _, _ => false
  end.

(** [x in xs] for a list. *)
Definition py_in (x : value) (xs : list value) : bool :=
  existsb (py_eq x) xs.

(** [d[k]] *)
Definition getitem (d : record) (k : string) : result value :=
  match d !! k with
  | Some v => Ok v
  | None => Raise (KeyError k)
  end.

(** [d.get(k)] and [d.get(k, default)] *)
Definition dict_get (d : record) (k : string) (default : value) : value :=
  match d !! k with
  | Some v => v
  | None => default
  end.

(** [v.get(k)] on an arbitrary value: only a dict has the method. *)
Definition attr_get (v : value) (k : string) : result value :=
  match v with
  | VDict d => Ok (dict_get d k VNone)
  | _ => Raise AttributeError
  end.

(** ** The passes *)

Definition stringify_one (key : string) (sig : record) : result record :=
  v ← getitem sig key;
  Ok (<[key := VStr (py_str v)]> sig).

Definition stringify_signal_ids (kits_sig_status : list record) (key : string)
  : result (list record) :=
  mapM (stringify_one key) kits_sig_status.

Definition deletion_marker (signal_id : value) : record :=
  <["signal_id" := signal_id]> (<[":deleted" := VBool true]> ∅).

Definition identify_deletes (kits_sig_status socrata_sig_status : list record)
  : result (list record) :=
  kits_ids ← mapM (fun s => getitem s "signal_id") kits_sig_status;
  socrata_ids ← mapM (fun s => getitem s "signal_id") socrata_sig_status;
  Ok (map deletion_marker
        (List.filter (fun signal_id => negb (py_in signal_id kits_ids)) socrata_ids)).

Definition asset_fields : list string :=
  ["location"; "location_name"; "primary_st"; "cross_st"].

(** [d.update({key: src.get(key) for key in keys})]; the values are
    shared with [src], and no pass changes a value in place. *)
Definition update_from (keys : list string) (src d : record) : record :=
  foldl (fun acc key => <[key := dict_get src key VNone]> acc) d keys.

Definition matching_assets (signal_asset_data : list record) (kits_signal : record)
  : result (list record) :=
  filterM (fun a =>
             x ← getitem a "signal_id";
             y ← getitem kits_signal "signal_id";
             Ok (py_eq x y)) signal_asset_data.

Definition merge_one (signal_asset_data : list record) (kits_signal : record)
  : result record :=
  matched_signal_list ← matching_assets signal_asset_data kits_signal;
  match matched_signal_list with
  | [] => Ok kits_signal
  | matched_signal :: _ => Ok (update_from asset_fields matched_signal kits_signal)
  end.

Definition merge_signal_asset_data (kits_sig_status signal_asset_data : list record)
  : result (list record) :=
  mapM (merge_one signal_asset_data) kits_sig_status.

(** An Arrow object: wall-clock fields and the name of its zone. *)
Record arrow : Type := Arrow { a_fields : datetime; a_tz : string }.

(** [arrow.get(v)]: a naive datetime is taken as it is, in UTC. *)
Definition arrow_get (v : value) : result arrow :=
  match v with
  | VDateTime d => Ok (Arrow d "UTC")
  | _ => d ← arrow_get_other lib v; Ok (Arrow d "UTC")
  end.

(** [dt.replace(tzinfo=tz)] swaps the zone and keeps the fields. *)
Definition arrow_replace_tzinfo (dt : arrow) (tz : string) : arrow :=
  Arrow (a_fields dt) tz.

(** [dt.format("YYYY-MM-DDTHH:mm:ss")]: the letter T is no token of
    Arrow's formatter and is printed as it stands. *)
Definition arrow_format (dt : arrow) : string :=
  let d := a_fields dt in
  zpad 4 (year d) +:+ "-" +:+ zpad 2 (month d) +:+ "-" +:+ zpad 2 (day d) +:+ "T" +:+
  zpad 2 (hour d) +:+ ":" +:+ zpad 2 (minute d) +:+ ":" +:+ zpad 2 (second d).

Definition localize_one (key tz : string) (signal : record) : result record :=
  v ← getitem signal key;
  dt ← arrow_get v;
  let dt_local := arrow_replace_tzinfo dt tz in
  Ok (<[key := VStr (arrow_format dt_local)]> signal).

Definition localize_operation_state_datetime
  (kits_sig_status : list record) (key tz : string) : result (list record) :=
  mapM (localize_one key tz) kits_sig_status.

(** [arrow.now(tz)] reads the clock once per record: [clock n] is the
    wall-clock time in the zone at the [n]-th reading, [tick] the number
    of readings so far. *)
Fixpoint set_processed_datetime (clock : nat -> datetime) (tz : string)
  (tick : nat) (kits_sig_status : list record) : list record * nat :=
  match kits_sig_status with
  | [] => ([], tick)
  | signal :: rest =>
      let now := Arrow (clock tick) tz in
      let signal' := <["processed_datetime" := VStr (arrow_format now)]> signal in
      let '(rest', tick') := set_processed_datetime clock tz (S tick) rest in
      (signal' :: rest', tick')
  end.

Definition convert_key (signal : record) (key : string) : result record :=
  v ← getitem signal key;
  z ← py_int v;
  Ok (<[key := VInt z]> signal).

Definition convert_decimals (kits_sig_status : list record) (keys : list string)
  : result (list record) :=
  mapM (fun signal => foldM convert_key keys signal) kits_sig_status.

Definition format_one (signal : record) : result record :=
  lat ← attr_get (dict_get signal "location" (VDict ∅)) "latitude";
  lon ← attr_get (dict_get signal "location" (VDict ∅)) "longitude";
  if py_bool lat && py_bool lon
  then Ok (<["location" := VStr ("(" +:+ py_str lon +:+ ", " +:+ py_str lat +:+ ")")]> signal)
  else Ok signal.

Definition format_locations (kits_sig_status : list record) : result (list record) :=
  mapM format_one kits_sig_status.

End Publisher.

(** ** The outside world *)

Record params : Type := Params { p_where : option string; p_limit : Z }.

(** The response object of [requests.get]. *)
Record response : Type := Response {
  status_code : Z;
  json : result (list record)
}.

(** Settings read from the process environment ([os.getenv] gives [None]
    for an unset variable). *)
Record config : Type := Config {
  KITS_SERVER : option string;
  KITS_USER : option string;
  KITS_PASSWORD : option string;
  KITS_DATABSE : option string;
  SOCRATA_APP_TOKEN : option string;
  SOCRATA_API_KEY_ID : option string;
  SOCRATA_API_KEY_SECRET : option string
}.

(** What the script does to the outside world, in the order it does it. *)
Inductive event : Type :=
| EvQuery (server user password database : option string) (statuses : list Z)
| EvGet (endpoint : string) (p : params)
| EvLog (msg : string)
| EvUpsert (resource_id : string) (payload : list record).

(** How the outside world answers: the database, the portal's read and
    write endpoints, and the clock. *)
Record env : Type := Env {
  pymssql_fetchall :
    option string -> option string -> option string -> option string ->
    list Z -> result (list record);
  requests_get : string -> params -> result response;
  socrata_upsert : string -> list record -> result unit;
  clock : nat -> datetime
}.

Record world : Type := World { trace : list event; ticks : nat }.

(** State and exceptions: a computation runs in a world and leaves a
    world behind, also when it raises. *)
Definition io (A : Type) : Type := world -> result A * world.

#[export] Instance io_ret : MRet io := fun _ a w => (Ok a, w).
#[export] Instance io_bind : MBind io := fun _ _ f m w =>
  match m w with
  | (Ok a, w') => f a w'
  | (Raise e, w') => (Raise e, w')
  end.

Definition emit (e : event) : io unit :=
  fun w => (Ok tt, World (trace w ++ [e]) (ticks w)).

Definition lift {A : Type} (r : result A) : io A := fun w => (r, w).

Definition FLASH_STATUSES : list Z := [1; 2; 3]%Z.
Definition SIGNAL_STATUS_RESOURCE_ID : string := "5zpr-dehc".
Definition SIGNALS_RESOURCE_ID : string := "p53x-x73x".

Section Orchestrator.

Context (lib : library) (cfg : config) (E : env).

Definition get_kits_signal_status (server user password database : option string)
  : io (list record) :=
  _ ← emit (EvQuery server user password database FLASH_STATUSES);
  lift (pymssql_fetchall E server user password database FLASH_STATUSES).

(** [res.raise_for_status()] *)
Definition raise_for_status (res : response) : result unit :=
  if ((400 <=? status_code res) && (status_code res <? 600))%Z
  then Raise HTTPError else Ok tt.

(** The three steps of [get_socrata_data] after the request is sent: the
    request itself, [raise_for_status] and [res.json()]. *)
Definition socrata_response (resource_id : string) (p : params) : result (list record) :=
  let endpoint := "https://data.austintexas.gov/resource/" +:+ resource_id +:+ ".json" in
  res ← requests_get E endpoint p;
  _ ← raise_for_status res;
  json res.

Definition get_socrata_data (resource_id : string) (p : params) : io (list record) :=
  let endpoint := "https://data.austintexas.gov/resource/" +:+ resource_id +:+ ".json" in
  _ ← emit (EvGet endpoint p);
  lift (socrata_response resource_id p).

Definition logger_info (msg : string) : io unit := emit (EvLog msg).

(** [sep.join(xs)] raises TypeError on an item that is not a string. *)
Fixpoint str_join (sep : string) (xs : list value) : result string :=
  match xs with
  | [] => Ok ""
  | VStr s :: [] => Ok s
  | VStr s :: rest => t ← str_join sep rest; Ok (s +:+ sep +:+ t)
  | _ :: _ => Raise TypeError
  end.

(** [len(xs)] inside an f-string. *)
Definition len_str {A : Type} (xs : list A) : string := pretty (N.of_nat (length xs)).

Definition stamp (kits_sig_status : list record) : io (list record) :=
  fun w =>
    let '(stamped, tick) :=
      set_processed_datetime (clock E) "US/Central" (ticks w) kits_sig_status in
    (Ok stamped, World (trace w) tick).

Definition main : io unit :=
  kits_sig_status ← get_kits_signal_status
    (KITS_SERVER cfg) (KITS_USER cfg) (KITS_PASSWORD cfg) (KITS_DATABSE cfg);
  _ ← logger_info (len_str kits_sig_status +:+ " records to process.");
  kits_sig_status ← lift (stringify_signal_ids lib kits_sig_status "signal_id");
  socrata_sig_status ← get_socrata_data SIGNAL_STATUS_RESOURCE_ID (Params None 99999);
  delete_signals ← lift (identify_deletes kits_sig_status socrata_sig_status);
  _ ← logger_info (len_str delete_signals +:+ " to be deleted.");
  fetch_signal_ids ← lift (mapM (fun signal => getitem signal "signal_id") kits_sig_status);
  ids ← lift (str_join "," fetch_signal_ids);
  let p := Params (Some ("signal_id in (" +:+ ids +:+ ")")) 99999 in
  signal_asset_data ← get_socrata_data SIGNALS_RESOURCE_ID p;
  kits_sig_status ← lift (merge_signal_asset_data kits_sig_status signal_asset_data);
  kits_sig_status ← lift (localize_operation_state_datetime lib kits_sig_status
                            "operation_state_datetime" "US/Central");
  kits_sig_status ← stamp kits_sig_status;
  kits_sig_status ← lift (convert_decimals lib kits_sig_status ["operation_state"; "plan_id"]);
  kits_sig_status ← lift (format_locations lib kits_sig_status);
  _ ← emit (EvUpsert SIGNAL_STATUS_RESOURCE_ID (kits_sig_status ++ delete_signals));
  lift (socrata_upsert E SIGNAL_STATUS_RESOURCE_ID (kits_sig_status ++ delete_signals)).
(* Building the [sodapy.Socrata] client sends nothing; the one request it
   is used for is the upsert. *)

End Orchestrator.

(** ** Sample data *)

(** The binary64 numbers nearest to 30.1 and to -97.7, which are what
    reading these two literals gives. *)
Definition float_30_1 : spec_float := S754_finite false 8472396798990746 (-48).
Definition float_neg_97_7 : spec_float := S754_finite true 6875026306157773 (-46).

(** A library for the sample data: it prints the two sample coordinates
    as Python does and is not meant for other floats, dicts or strings. *)
Definition sample_lib : library :=
  Library (fun f => if float_eqb f float_30_1 then "30.1"
                    else if float_eqb f float_neg_97_7 then "-97.7"
                    else "nan")
          (fun _ => "{}") (fun _ => None) (fun _ => Raise TypeError).

Definition sample_datetime : datetime := DateTime 2024 1 15 8 30 0 0.

(** A row as the database delivers it. *)
Definition sample_row (id : Z) : record :=
  <["operation_state_datetime" := VDateTime sample_datetime]>
  (<["operation_state" := VDec (Decimal false 20 (-1))]>
  (<["plan_id" := VInt 7]>
  (<["signal_id" := VInt id]> ∅))).

(** A record of the published dataset. *)
Definition sample_published (id : string) : record :=
  <["signal_id" := VStr id]> (<["operation_state" := VStr "2"]> ∅).

Definition sample_point : record :=
  <["latitude" := VFloat float_30_1]> (<["longitude" := VFloat float_neg_97_7]> ∅).

(** A record of the asset dataset; it has no street names. *)
Definition sample_asset (id : string) : record :=
  <["signal_id" := VStr id]>
  (<["location_name" := VStr "Main & 5th"]>
  (<["location" := VDict sample_point]> ∅)).

Definition sample_config : config := Config None None None None None None None.

(** A world in which the database holds signals 101 and 102, the
    published dataset signals 101 and 103, and every call succeeds. *)
Definition sample_env : env :=
  Env (fun _ _ _ _ _ => Ok [sample_row 101; sample_row 102])
      (fun endpoint _ =>
         if String.eqb endpoint "https://data.austintexas.gov/resource/5zpr-dehc.json"
         then Ok (Response 200 (Ok [sample_published "101"; sample_published "103"]))
         else Ok (Response 200 (Ok [sample_asset "101"])))
      (fun _ _ => Ok tt)
      (fun _ => DateTime 2024 1 15 9 0 0 0).

(** ** Notions used to state the properties *)

(** The identifiers of a list of records, when each one is a string. *)
Definition has_ids (recs : list record) (ids : list string) : Prop :=
  Forall2 (fun r id => r !! "signal_id" = Some (VStr id)) recs ids.

(** The form [YYYY-MM-DDTHH:mm:ss] written out digit by digit: four
    digits of the year, two of every other field, the separators, and
    nothing after the seconds. *)
Definition digit (n : N) : ascii := ascii_of_N (48 + n mod 10).

Definition two_digits (n : N) : string :=
  String (digit (n / 10)) (String (digit n) "").

Definition four_digits (n : N) : string :=
  String (digit (n / 1000)) (String (digit (n / 100)) (two_digits n)).

Definition spec_iso_seconds (d : datetime) : string :=
  four_digits (year d) +:+ "-" +:+ two_digits (month d) +:+ "-" +:+
  two_digits (day d) +:+ "T" +:+ two_digits (hour d) +:+ ":" +:+
  two_digits (minute d) +:+ ":" +:+ two_digits (second d).

(** Reading such a string back: year, month, day, hour, minute, second. *)
Definition digit_val (c : ascii) : option N :=
  let n := N_of_ascii c in
  if ((48 <=? n) && (n <=? 57))%N then Some (n - 48)%N else None.

Definition read_number (cs : list ascii) : option N :=
  foldl (fun acc c => a ← acc; d ← digit_val c; Some (10 * a + d)%N) (Some 0%N) cs.

Definition read_iso_seconds (s : string) : option (N * N * N * N * N * N) :=
  match list_ascii_of_string s with
  | [y1; y2; y3; y4; a; m1; m2; b; d1; d2; t; h1; h2; c; n1; n2; e; s1; s2] =>
      if Ascii.eqb a "-" && Ascii.eqb b "-" && Ascii.eqb t "T" &&
         Ascii.eqb c ":" && Ascii.eqb e ":"
      then
        y ← read_number [y1; y2; y3; y4];
        m ← read_number [m1; m2];
        d ← read_number [d1; d2];
        h ← read_number [h1; h2];
        n ← read_number [n1; n2];
        s ← read_number [s1; s2];
        Some (y, m, d, h, n, s)
      else None
  | _ => None
  end.

(** Whether an asset record and a source record carry equal identifiers. *)
Definition same_signal (a r : record) : bool :=
  match a !! "signal_id", r !! "signal_id" with
  | Some x, Some y => py_eq x y
  | _, _ => false
  end.

(** The six normalisation passes as [main] calls them, and the fields each
    one is meant to write. *)
Inductive pass : Type :=
| StringifyIds
| MergeAssets (signal_asset_data : list record)
| LocalizeDatetime
| StampProcessed (clock : nat -> datetime) (tick : nat)
| ConvertDecimals
| FormatLocations.

Definition run_pass (lib : library) (p : pass) (recs : list record)
  : result (list record) :=
  match p with
  | StringifyIds => stringify_signal_ids lib recs "signal_id"
  | MergeAssets signal_asset_data => merge_signal_asset_data recs signal_asset_data
  | LocalizeDatetime =>
      localize_operation_state_datetime lib recs "operation_state_datetime" "US/Central"
  | StampProcessed clock tick =>
      Ok (fst (set_processed_datetime clock "US/Central" tick recs))
  | ConvertDecimals => convert_decimals lib recs ["operation_state"; "plan_id"]
  | FormatLocations => format_locations lib recs
  end.

Definition designated (p : pass) : list string :=
  match p with
  | StringifyIds => ["signal_id"]
  | MergeAssets _ => asset_fields
  | LocalizeDatetime => ["operation_state_datetime"]
  | StampProcessed _ _ => ["processed_datetime"]
  | ConvertDecimals => ["operation_state"; "plan_id"]
  | FormatLocations => ["location"]
  end.

(** A pass is idempotent on a collection when, having succeeded once, it
    succeeds again on its own result and leaves that result as it is. *)
Definition idempotent_on (f : list record -> result (list record))
  (recs : list record) : Prop :=
  forall recs', f recs = Ok recs' -> f recs' = Ok recs'.

(** The write calls among the events of a run. *)
Definition upserts (events : list event) : list (string * list record) :=
  omap (fun e => match e with
                 | EvUpsert resource_id payload => Some (resource_id, payload)
                 | _ => None
                 end) events.

Section Run.

Context (lib : library) (cfg : config) (E : env).

(** The operations [main] performs before the write, in order; stamping
    the processing time reads the clock and cannot raise, so it is no entry
    of its own. *)
Inductive op : Type :=
| OpQuery | OpStringify | OpReadPublished | OpIdentifyDeletes | OpListIds
| OpJoinIds | OpReadAssets | OpMerge | OpLocalize | OpConvert | OpFormat.

Definition ops : list op :=
  [OpQuery; OpStringify; OpReadPublished; OpIdentifyDeletes; OpListIds;
   OpJoinIds; OpReadAssets; OpMerge; OpLocalize; OpConvert; OpFormat].

(** The value each operation yields in a run in which it succeeds. *)
Record run_values : Type := RunValues {
  rv_rows : list record;
  rv_stringified : list record;
  rv_published : list record;
  rv_deletes : list record;
  rv_ids : list value;
  rv_joined : string;
  rv_assets : list record;
  rv_merged : list record;
  rv_localized : list record;
  rv_converted : list record;
  rv_formatted : list record
}.

(** An operation applied to the values of the operations before it,
    paired with the value it is expected to yield. *)
Definition op_run (v : run_values) (o : op) : { A : Type & (result A * A)%type } :=
  match o with
  | OpQuery =>
      existT _ (pymssql_fetchall E (KITS_SERVER cfg) (KITS_USER cfg)
                  (KITS_PASSWORD cfg) (KITS_DATABSE cfg) FLASH_STATUSES,
                rv_rows v)
  | OpStringify =>
      existT _ (stringify_signal_ids lib (rv_rows v) "signal_id", rv_stringified v)
  | OpReadPublished =>
      existT _ (socrata_response E SIGNAL_STATUS_RESOURCE_ID (Params None 99999),
                rv_published v)
  | OpIdentifyDeletes =>
      existT _ (identify_deletes (rv_stringified v) (rv_published v), rv_deletes v)
  | OpListIds =>
      existT _ (mapM (fun signal => getitem signal "signal_id") (rv_stringified v),
                rv_ids v)
  | OpJoinIds =>
      existT _ (str_join "," (rv_ids v), rv_joined v)
  | OpReadAssets =>
      existT _ (socrata_response E SIGNALS_RESOURCE_ID
                  (Params (Some ("signal_id in (" +:+ rv_joined v +:+ ")")) 99999),
                rv_assets v)
  | OpMerge =>
      existT _ (merge_signal_asset_data (rv_stringified v) (rv_assets v), rv_merged v)
  | OpLocalize =>
      existT _ (localize_operation_state_datetime lib (rv_merged v)
                  "operation_state_datetime" "US/Central",
                rv_localized v)
  | OpConvert =>
      existT _ (convert_decimals lib
                  (fst (set_processed_datetime (clock E) "US/Central" 0 (rv_localized v)))
                  ["operation_state"; "plan_id"],
                rv_converted v)
  | OpFormat =>
      existT _ (format_locations lib (rv_converted v), rv_formatted v)
  end.

Definition op_ok (v : run_values) (o : op) : Prop :=
  fst (projT2 (op_run v o)) = Ok (snd (projT2 (op_run v o))).

Definition op_raises (v : run_values) (o : op) (e : exn) : Prop :=
  fst (projT2 (op_run v o)) = Raise e.

End Run.

(** The value of a computation that is expected to succeed. *)
Definition force {A : Type} (default : A) (r : result A) : A :=
  match r with
  | Ok a => a
  | Raise _ => default
  end.

(** The rows once their identifiers are strings. *)
Definition sample_stringified : list record :=
  [<["signal_id" := VStr "101"]> (sample_row 101);
   <["signal_id" := VStr "102"]> (sample_row 102)].

Definition sample_published_set : list record :=
  [sample_published "101"; sample_published "103"].

(** What each operation of [main] yields in the sample world. *)
Definition sample_values : run_values :=
  let rows := [sample_row 101; sample_row 102] in
  let s := force [] (stringify_signal_ids sample_lib rows "signal_id") in
  let pub := sample_published_set in
  let dels := force [] (identify_deletes s pub) in
  let ids := force [] (mapM (fun signal => getitem signal "signal_id") s) in
  let j := force "" (str_join "," ids) in
  let assets := [sample_asset "101"] in
  let m := force [] (merge_signal_asset_data s assets) in
  let l := force [] (localize_operation_state_datetime sample_lib m
                       "operation_state_datetime" "US/Central") in
  let st := fst (set_processed_datetime (clock sample_env) "US/Central" 0 l) in
  let c := force [] (convert_decimals sample_lib st ["operation_state"; "plan_id"]) in
  let f := force [] (format_locations sample_lib c) in
  RunValues rows s pub dels ids j assets m l c f.

(** The sample world with the portal answering 503 to every read. *)
Definition outage_env : env :=
  Env (pymssql_fetchall sample_env)
      (fun _ _ => Ok (Response 503 (Ok [])))
      (socrata_upsert sample_env)
      (clock sample_env).

(** A point on the equator: both components are there, the latitude is 0. *)
Definition equator_point : record :=
  <["latitude" := VInt 0]> (<["longitude" := VFloat float_neg_97_7]> ∅).

Definition equator_record : record :=
  <["signal_id" := VStr "101"]> (<["location" := VDict equator_point]> ∅).

Definition located_record : record :=
  <["signal_id" := VStr "101"]> (<["location" := VDict sample_point]> ∅).

(** An asset record that has a name and no location. *)
Definition bare_asset (id : string) : record :=
  <["signal_id" := VStr id]> (<["location_name" := VStr "Main & 5th"]> ∅).

(** The sample world with that asset in the asset dataset. *)
Definition bare_env : env :=
  Env (pymssql_fetchall sample_env)
      (fun endpoint _ =>
         if String.eqb endpoint "https://data.austintexas.gov/resource/5zpr-dehc.json"
         then Ok (Response 200 (Ok sample_published_set))
         else Ok (Response 200 (Ok [bare_asset "101"])))
      (socrata_upsert sample_env)
      (clock sample_env).

(** What the operations up to coercion yield in that world. *)
Definition bare_values : run_values :=
  let s := rv_stringified sample_values in
  let assets := [bare_asset "101"] in
  let m := force [] (merge_signal_asset_data s assets) in
  let l := force [] (localize_operation_state_datetime sample_lib m
                       "operation_state_datetime" "US/Central") in
  let st := fst (set_processed_datetime (clock bare_env) "US/Central" 0 l) in
  let c := force [] (convert_decimals sample_lib st ["operation_state"; "plan_id"]) in
  RunValues (rv_rows sample_values) s (rv_published sample_values)
    (rv_deletes sample_values) (rv_ids sample_values) (rv_joined sample_values)
    assets m l c [].


(** The first upsert record of the sample run. *)
Definition sample_upsert : record :=
  default ∅ (rv_formatted sample_values !! 0).

(** ** The error monad on lists *)

Section ListMonad.

Context {A B : Type} (f : A -> result B).

Lemma mapM_cons (x : A) (l : list A) :
  mapM f (x :: l) =
  match f x with
  | Ok y => match mapM f l with
            | Ok ys => Ok (y :: ys)
            | Raise e => Raise e
            end
  | Raise e => Raise e
  end.
Proof. reflexivity. Qed.

Lemma mapM_Ok_Forall2 (l : list A) (k : list B) :
  mapM f l = Ok k <-> Forall2 (fun x y => f x = Ok y) l k.
Proof.
  revert k. induction l as [|x l IH]; intros k.
  - split.
    + intros [= <-]. constructor.
    + intros H. inversion H. reflexivity.
  - rewrite mapM_cons. split.
    + destruct (f x) as [y|e] eqn:Hx; [|discriminate].
      destruct (mapM f l) as [ys|e] eqn:Hl; [|discriminate].
      intros [= <-]. constructor; [assumption|]. apply IH. reflexivity.
    + intros H. inversion H as [|? y ? ys Hx Hl]; subst.
      apply IH in Hl. rewrite Hx, Hl. reflexivity.
Qed.

Lemma mapM_Ok_length (l : list A) (k : list B) :
  mapM f l = Ok k -> length k = length l.
Proof.
  intros H. apply mapM_Ok_Forall2 in H. symmetry. eapply Forall2_length, H.
Qed.

Lemma mapM_Ok_lookup (l : list A) (k : list B) (i : nat) (x : A) (y : B) :
  mapM f l = Ok k -> l !! i = Some x -> k !! i = Some y -> f x = Ok y.
Proof.
  intros H Hx Hy. apply mapM_Ok_Forall2 in H.
  exact (Forall2_lookup_lr _ _ _ _ _ _ H Hx Hy).
Qed.

Lemma mapM_total (l : list A) :
  Forall (fun x => exists y, f x = Ok y) l -> exists k, mapM f l = Ok k.
Proof.
  induction 1 as [|x l [y Hy] _ [k Hk]].
  - exists []. reflexivity.
  - exists (y :: k). apply mapM_Ok_Forall2. constructor; [assumption|].
    apply mapM_Ok_Forall2. assumption.
Qed.

End ListMonad.

Lemma filterM_total {A : Type} (f : A -> result bool) (l : list A) :
  Forall (fun x => exists b, f x = Ok b) l -> exists k, filterM f l = Ok k.
Proof.
  induction 1 as [|x l [b Hb] _ [k Hk]]; [exists []; reflexivity|].
  exists (if b then x :: k else k). cbn [filterM]. rewrite Hb, Hk. reflexivity.
Qed.

Lemma filterM_Ok_filter {A : Type} (f : A -> result bool) (g : A -> bool)
  (l k : list A) :
  (forall x b, f x = Ok b -> b = g x) ->
  filterM f l = Ok k -> k = List.filter g l.
Proof.
  intros Hfg. revert k. induction l as [|x l IH]; intros k H; simpl in H.
  - injection H as <-. reflexivity.
  - unfold mbind, result_bind in H.
    destruct (f x) as [b|e] eqn:Hx; [|discriminate H].
    destruct (filterM f l) as [ys|e] eqn:Hl; [|discriminate H].
    injection H as <-. simpl. rewrite <- (Hfg x b Hx), <- (IH ys eq_refl).
    reflexivity.
Qed.

(** ** The reconciler *)

Section Reconciler.

Implicit Types (S P : list record) (sids pids : list string).

Lemma getitem_ids (recs : list record) (ids : list string) :
  has_ids recs ids ->
  mapM (fun s => getitem s "signal_id") recs = Ok (VStr <$> ids).
Proof.
  intros H. apply mapM_Ok_Forall2. induction H as [|r id recs ids Hr _ IH]; simpl.
  - constructor.
  - constructor; [|exact IH]. unfold getitem. rewrite Hr. reflexivity.
Qed.

Lemma py_in_str (id : string) sids :
  py_in (VStr id) (VStr <$> sids) = bool_decide (id ∈ sids).
Proof.
  unfold py_in. induction sids as [|s sids IH]; [reflexivity|].
  rewrite fmap_cons. cbn [existsb]. rewrite IH.
  change (py_eq (VStr id) (VStr s)) with (String.eqb id s).
  destruct (String.eqb_spec id s) as [->|Hne]; simpl.
  - symmetry. apply bool_decide_eq_true. left.
  - apply bool_decide_ext. rewrite elem_of_cons. tauto.
Qed.

Lemma filter_not_in_str sids pids :
  List.filter (fun v => negb (py_in v (VStr <$> sids))) (VStr <$> pids) =
  VStr <$> filter (fun id => id ∉ sids) pids.
Proof.
  induction pids as [|p pids IH]; [reflexivity|].
  rewrite fmap_cons. simpl List.filter. rewrite py_in_str, filter_cons, IH.
  destruct (decide (p ∉ sids)) as [Hin|Hin].
  - rewrite bool_decide_eq_false_2 by exact Hin. reflexivity.
  - rewrite bool_decide_eq_true_2 by (destruct (decide (p ∈ sids)); tauto). reflexivity.
Qed.

(** C1: when the identifiers of the source records [S] and of the
    published records [P] are strings, [identify_deletes S P] returns one
    marker per published record whose identifier is the identifier of no
    source record, in the order of [P]; a marker is the mapping with
    ["signal_id"] set to that identifier and [":deleted"] set to [True] and
    nothing else; the identifier of a marker is the identifier of no source
    record, so deletions and upserts are disjoint. *)
Theorem identify_deletes_published_minus_source S P sids pids :
  has_ids S sids ->
  has_ids P pids ->
  identify_deletes S P =
    Ok ((fun id => <["signal_id" := VStr id]> (<[":deleted" := VBool true]> ∅))
          <$> filter (fun id => id ∉ sids) pids)
  /\ (forall markers m,
        identify_deletes S P = Ok markers -> m ∈ markers ->
        dom m = ({["signal_id"; ":deleted"]} : gset string) /\
        m !! ":deleted" = Some (VBool true) /\
        (exists id, m !! "signal_id" = Some (VStr id) /\ id ∈ pids /\ id ∉ sids) /\
        (forall s, s ∈ S -> m !! "signal_id" <> s !! "signal_id")).
Proof.
  intros HS HP.
  assert (Hrun : identify_deletes S P =
    Ok ((fun id => <["signal_id" := VStr id]> (<[":deleted" := VBool true]> ∅))
          <$> filter (fun id => id ∉ sids) pids)).
  { unfold identify_deletes.
    rewrite (getitem_ids _ _ HS). simpl.
    rewrite (getitem_ids _ _ HP). simpl.
    rewrite filter_not_in_str, <- list_fmap_compose. reflexivity. }
  split; [exact Hrun|].
  intros markers m Hm Hin. rewrite Hrun in Hm. injection Hm as <-.
  apply list_elem_of_fmap in Hin as (id & -> & Hid).
  apply list_elem_of_filter in Hid as [Hnot Hpid].
  split; [|split; [|split]].
  - rewrite !dom_insert_L, dom_empty_L. set_solver.
  - rewrite lookup_insert_ne by discriminate. apply lookup_insert_eq.
  - exists id. split; [apply lookup_insert_eq|]. split; [exact Hpid | exact Hnot].
  - intros s HsS. apply list_elem_of_lookup_1 in HsS as [i Hi].
    destruct (Forall2_lookup_l _ _ _ _ _ HS Hi) as (sid & Hsid & Hs).
    rewrite lookup_insert_eq, Hs.
    intros [= ->]. apply Hnot. eapply list_elem_of_lookup_2. exact Hsid.
Qed.

End Reconciler.

(** ** Printing of bounded numbers *)

Section Printing.

Lemma pretty_N_char_digit (n : N) : pretty_N_char (n mod 10) = digit n.
Proof.
  unfold digit.
  assert (Hlt : (n mod 10 < 10)%N) by (apply N.mod_lt; discriminate).
  revert Hlt. generalize (n mod 10)%N. intros r Hlt.
  assert (Hr : (r = 0 \/ r = 1 \/ r = 2 \/ r = 3 \/ r = 4 \/ r = 5 \/ r = 6 \/
                r = 7 \/ r = 8 \/ r = 9)%N) by lia.
  repeat (destruct Hr as [->|Hr]; [reflexivity|]). subst r. reflexivity.
Qed.

Lemma pretty_N_go_digit (n : N) (s : string) :
  (0 < n)%N -> pretty_N_go n s = pretty_N_go (n / 10) (String (digit n) s).
Proof.
  intros Hn. rewrite pretty_N_go_step by exact Hn.
  rewrite pretty_N_char_digit. reflexivity.
Qed.

Lemma pretty_N_positive (n : N) : (0 < n)%N -> pretty n = pretty_N_go n "".
Proof.
  intros Hn. unfold pretty, pretty_N.
  destruct (decide (n = 0%N)) as [->|_]; [lia | reflexivity].
Qed.

Lemma digit_small_quotient (n k : N) : (n < k)%N -> digit (n / k) = "0"%char.
Proof. intros Hn. rewrite N.div_small by exact Hn. reflexivity. Qed.

Lemma pretty_one_digit (n : N) : (n < 10)%N -> pretty n = String (digit n) "".
Proof.
  intros Hn. destruct (decide (n = 0%N)) as [->|Hpos]; [reflexivity|].
  rewrite pretty_N_positive, pretty_N_go_digit by lia.
  rewrite (N.div_small n 10) by exact Hn. reflexivity.
Qed.

Lemma pretty_more_digits (n : N) :
  (10 <= n)%N -> pretty n = pretty_N_go (n / 10) (String (digit n) "").
Proof.
  intros Hn. rewrite pretty_N_positive, pretty_N_go_digit by lia. reflexivity.
Qed.

Lemma pretty_two_digits (n : N) :
  (10 <= n < 100)%N -> pretty n = two_digits n.
Proof.
  intros [Hlo Hhi]. rewrite pretty_more_digits by exact Hlo.
  rewrite pretty_N_go_digit by (apply N.div_str_pos; lia).
  rewrite N.Div0.div_div. change (10 * 10)%N with 100%N.
  rewrite (N.div_small n 100) by exact Hhi. reflexivity.
Qed.

Lemma pretty_three_digits (n : N) :
  (100 <= n < 1000)%N ->
  pretty n = String (digit (n / 100)) (two_digits n).
Proof.
  intros [Hlo Hhi]. rewrite pretty_more_digits by lia.
  rewrite pretty_N_go_digit by (apply N.div_str_pos; lia).
  rewrite N.Div0.div_div. change (10 * 10)%N with 100%N.
  rewrite pretty_N_go_digit by (apply N.div_str_pos; lia).
  rewrite N.Div0.div_div. change (100 * 10)%N with 1000%N.
  rewrite (N.div_small n 1000) by exact Hhi. reflexivity.
Qed.

Lemma pretty_four_digits (n : N) :
  (1000 <= n < 10000)%N -> pretty n = four_digits n.
Proof.
  intros [Hlo Hhi]. rewrite pretty_more_digits by lia.
  rewrite pretty_N_go_digit by (apply N.div_str_pos; lia).
  rewrite N.Div0.div_div. change (10 * 10)%N with 100%N.
  rewrite pretty_N_go_digit by (apply N.div_str_pos; lia).
  rewrite N.Div0.div_div. change (100 * 10)%N with 1000%N.
  rewrite pretty_N_go_digit by (apply N.div_str_pos; lia).
  rewrite N.Div0.div_div. change (1000 * 10)%N with 10000%N.
  rewrite (N.div_small n 10000) by exact Hhi. reflexivity.
Qed.

Lemma zpad_two_digits (n : N) : (n < 100)%N -> zpad 2 n = two_digits n.
Proof.
  intros Hn. unfold zpad. destruct (decide (n < 10)%N) as [Hs|Hs].
  - rewrite pretty_one_digit by exact Hs. unfold two_digits.
    rewrite digit_small_quotient by exact Hs. reflexivity.
  - rewrite pretty_two_digits by lia. reflexivity.
Qed.

Lemma zpad_four_digits (n : N) : (n < 10000)%N -> zpad 4 n = four_digits n.
Proof.
  intros Hn. unfold zpad.
  destruct (decide (n < 10)%N) as [H1|H1];
    [|destruct (decide (n < 100)%N) as [H2|H2];
      [|destruct (decide (n < 1000)%N) as [H3|H3]]].
  - rewrite pretty_one_digit by exact H1. unfold four_digits, two_digits.
    rewrite (digit_small_quotient n 1000), (digit_small_quotient n 100),
      (digit_small_quotient n 10) by lia.
    reflexivity.
  - rewrite pretty_two_digits by lia. unfold four_digits.
    rewrite (digit_small_quotient n 1000), (digit_small_quotient n 100) by lia.
    reflexivity.
  - rewrite pretty_three_digits by lia. unfold four_digits.
    rewrite (digit_small_quotient n 1000) by lia. reflexivity.
  - rewrite pretty_four_digits by lia. reflexivity.
Qed.

Lemma arrow_format_iso (d : datetime) (tz : string) :
  valid_datetime d -> arrow_format (Arrow d tz) = spec_iso_seconds d.
Proof.
  intros (Hy & Hm & Hd & Hh & Hn & Hs & _).
  unfold arrow_format, spec_iso_seconds. cbn [a_fields].
  rewrite (zpad_four_digits (year d)) by lia.
  rewrite (zpad_two_digits (month d)) by lia.
  rewrite (zpad_two_digits (day d)) by lia.
  rewrite (zpad_two_digits (hour d)) by lia.
  rewrite (zpad_two_digits (minute d)) by lia.
  rewrite (zpad_two_digits (second d)) by lia.
  reflexivity.
Qed.

Lemma digit_val_digit (n : N) : digit_val (digit n) = Some (n mod 10)%N.
Proof.
  unfold digit_val, digit.
  assert (Hlt : (n mod 10 < 10)%N) by (apply N.mod_lt; discriminate).
  revert Hlt. generalize (n mod 10)%N. intros r Hlt.
  rewrite N_ascii_embedding by lia.
  destruct ((48 <=? 48 + r)%N && (48 + r <=? 57)%N) eqn:Hb.
  - apply (f_equal Some). lia.
  - apply andb_false_iff in Hb as [Hb|Hb]; apply N.leb_gt in Hb; lia.
Qed.

Lemma two_digits_value (n : N) :
  (n < 100)%N -> (10 * ((n / 10) mod 10) + n mod 10 = n)%N.
Proof.
  intros Hn.
  rewrite (N.mod_small (n / 10) 10) by (apply N.Div0.div_lt_upper_bound; lia).
  symmetry. apply N.div_mod. discriminate.
Qed.

Lemma read_two_digits (n : N) :
  (n < 100)%N -> read_number [digit (n / 10); digit n] = Some n.
Proof.
  intros Hn. unfold read_number. cbn [foldl mbind option_bind].
  rewrite !digit_val_digit. cbn [mbind option_bind]. apply (f_equal Some).
  rewrite N.mul_0_r, N.add_0_l. apply two_digits_value, Hn.
Qed.

Lemma four_digits_value (n : N) :
  (n < 10000)%N ->
  (10 * (10 * (10 * ((n / 1000) mod 10) + (n / 100) mod 10) + (n / 10) mod 10)
   + n mod 10 = n)%N.
Proof.
  intros Hn.
  rewrite (N.mod_small (n / 1000) 10) by (apply N.Div0.div_lt_upper_bound; lia).
  assert (H1 : (n / 100 = 10 * (n / 1000) + (n / 100) mod 10)%N).
  { replace (n / 1000)%N with (n / 100 / 10)%N
      by (rewrite N.Div0.div_div; reflexivity).
    apply N.div_mod. discriminate. }
  assert (H2 : (n / 10 = 10 * (n / 100) + (n / 10) mod 10)%N).
  { replace (n / 100)%N with (n / 10 / 10)%N
      by (rewrite N.Div0.div_div; reflexivity).
    apply N.div_mod. discriminate. }
  rewrite <- H1, <- H2. symmetry. apply N.div_mod. discriminate.
Qed.

Lemma read_four_digits (n : N) :
  (n < 10000)%N ->
  read_number [digit (n / 1000); digit (n / 100); digit (n / 10); digit n] = Some n.
Proof.
  intros Hn. unfold read_number. cbn [foldl mbind option_bind].
  rewrite !digit_val_digit. cbn [mbind option_bind]. apply (f_equal Some).
  rewrite N.mul_0_r, N.add_0_l. apply four_digits_value, Hn.
Qed.

Lemma read_spec_iso_seconds (d : datetime) :
  valid_datetime d ->
  read_iso_seconds (spec_iso_seconds d) =
    Some (year d, month d, day d, hour d, minute d, second d).
Proof.
  intros (Hy & Hm & Hd & Hh & Hn & Hs & _).
  unfold read_iso_seconds, spec_iso_seconds, four_digits, two_digits.
  cbv [String.append]. cbn -[digit read_number N.div].
  rewrite read_four_digits by lia.
  rewrite !read_two_digits by lia.
  reflexivity.
Qed.

End Printing.

(** ** The passes, record by record *)

(** Case analysis on the first computation of a monadic sequence that is
    known to succeed. *)
Ltac bind_ok H :=
  match type of H with
  | (mbind _ ?m = Ok _) =>
      let E := fresh "E" in
      unfold mbind at 1, result_bind at 1 in H;
      destruct m eqn:E; [|discriminate H]
  end.

Section Frames.

Context (lib : library).

Implicit Types (r : record) (k key : string) (recs : list record).

Lemma getitem_Ok r k v : getitem r k = Ok v <-> r !! k = Some v.
Proof.
  unfold getitem. destruct (r !! k); split; intros H; congruence.
Qed.

Lemma stringify_one_Ok key r r' :
  stringify_one lib key r = Ok r' ->
  exists v, r !! key = Some v /\ r' = <[key := VStr (py_str lib v)]> r.
Proof.
  unfold stringify_one. intros H. bind_ok H. apply getitem_Ok in E.
  injection H as <-. eauto.
Qed.

Lemma update_from_lookup_in keys (src r : record) k :
  k ∈ keys -> update_from keys src r !! k = Some (dict_get src k VNone).
Proof.
  unfold update_from. revert r. induction keys as [|k0 keys IH]; intros r Hin.
  - apply elem_of_nil in Hin. contradiction.
  - simpl. destruct (decide (k ∈ keys)) as [Hk|Hk]; [apply IH, Hk|].
    apply elem_of_cons in Hin as [->|Hin]; [|contradiction].
    clear IH. revert r. induction keys as [|k1 keys IH]; intros r; simpl.
    + apply lookup_insert_eq.
    + apply not_elem_of_cons in Hk as [Hne Hk].
      rewrite insert_insert_ne by congruence. apply IH, Hk.
Qed.

Lemma update_from_lookup_notin keys (src r : record) k :
  k ∉ keys -> update_from keys src r !! k = r !! k.
Proof.
  unfold update_from. revert r. induction keys as [|k0 keys IH]; intros r Hk.
  - reflexivity.
  - apply not_elem_of_cons in Hk as [Hne Hk]. simpl. rewrite IH by exact Hk.
    apply lookup_insert_ne. congruence.
Qed.

Lemma merge_one_frame assets r r' k :
  merge_one assets r = Ok r' -> k ∉ asset_fields -> r' !! k = r !! k.
Proof.
  unfold merge_one. intros H Hk. bind_ok H.
  destruct a as [|m rest]; injection H as <-; [reflexivity|].
  exact (update_from_lookup_notin asset_fields m r k Hk).
Qed.

Lemma localize_one_Ok key tz r r' :
  localize_one lib key tz r = Ok r' ->
  exists v dt, r !! key = Some v /\ arrow_get lib v = Ok dt /\
    r' = <[key := VStr (arrow_format (arrow_replace_tzinfo dt tz))]> r.
Proof.
  unfold localize_one. intros H. bind_ok H. apply getitem_Ok in E.
  bind_ok H. injection H as <-. eauto.
Qed.

Lemma set_processed_datetime_length clock tz tick recs :
  length (fst (set_processed_datetime clock tz tick recs)) = length recs.
Proof.
  revert tick. induction recs as [|r recs IH]; intros tick; simpl; [reflexivity|].
  specialize (IH (S tick)).
  destruct (set_processed_datetime clock tz (S tick) recs) as [rest tick'].
  simpl in *. congruence.
Qed.

Lemma set_processed_datetime_lookup clock tz tick recs i r :
  recs !! i = Some r ->
  fst (set_processed_datetime clock tz tick recs) !! i =
    Some (<["processed_datetime" := VStr (arrow_format (Arrow (clock (tick + i)) tz))]> r).
Proof.
  revert tick i. induction recs as [|r0 recs IH]; intros tick i Hi; [discriminate|].
  simpl. specialize (IH (S tick)).
  destruct (set_processed_datetime clock tz (S tick) recs) as [rest tick'].
  destruct i as [|i]; simpl in *.
  - injection Hi as ->. rewrite Nat.add_0_r. reflexivity.
  - rewrite (IH i Hi). repeat f_equal. lia.
Qed.

Lemma convert_key_Ok r key r' :
  convert_key lib r key = Ok r' ->
  exists v z, r !! key = Some v /\ py_int lib v = Ok z /\ r' = <[key := VInt z]> r.
Proof.
  unfold convert_key. intros H. bind_ok H. apply getitem_Ok in E.
  bind_ok H. injection H as <-. eauto.
Qed.

Lemma convert_keys_frame keys r r' k :
  foldM (convert_key lib) keys r = Ok r' -> k ∉ keys -> r' !! k = r !! k.
Proof.
  revert r. induction keys as [|k0 keys IH]; intros r H Hk; simpl in H.
  - injection H as <-. reflexivity.
  - apply not_elem_of_cons in Hk as [Hne Hk]. bind_ok H.
    apply convert_key_Ok in E as (v & z & _ & _ & ->).
    rewrite (IH _ H Hk). apply lookup_insert_ne. congruence.
Qed.

Lemma format_one_frame r r' k :
  format_one lib r = Ok r' -> k <> "location" -> r' !! k = r !! k.
Proof.
  unfold format_one. intros H Hk. bind_ok H. bind_ok H.
  destruct (py_bool a && py_bool a0); injection H as <-; [|reflexivity].
  apply lookup_insert_ne. congruence.
Qed.

End Frames.

(** ** The normaliser *)

Section Normalizer.

Context (lib : library).

Implicit Types (r : record) (k : string) (recs assets : list record).

Lemma matching_assets_Ok assets r l :
  matching_assets assets r = Ok l ->
  l = List.filter (fun a => same_signal a r) assets.
Proof.
  apply filterM_Ok_filter. intros a b H.
  bind_ok H. bind_ok H. injection H as <-.
  apply getitem_Ok in E, E0. unfold same_signal. rewrite E, E0. reflexivity.
Qed.

Lemma matching_assets_total assets r :
  is_Some (r !! "signal_id") ->
  Forall (fun a => is_Some (a !! "signal_id")) assets ->
  exists l, matching_assets assets r = Ok l.
Proof.
  intros [y Hy] Hall. apply filterM_total.
  eapply Forall_impl; [exact Hall|]. intros a [x Hx].
  exists (py_eq x y). unfold getitem. rewrite Hx, Hy. reflexivity.
Qed.

Lemma merge_one_Ok assets r r' :
  merge_one assets r = Ok r' ->
  r' = match List.filter (fun a => same_signal a r) assets with
       | [] => r
       | m :: _ => update_from asset_fields m r
       end.
Proof.
  unfold merge_one. intros H. bind_ok H. apply matching_assets_Ok in E. subst a.
  destruct (List.filter _ assets); injection H as <-; reflexivity.
Qed.

Lemma filter_no_match (f : record -> bool) assets :
  (forall a, a ∈ assets -> f a = false) -> List.filter f assets = [].
Proof.
  induction assets as [|a assets IH]; intros H; [reflexivity|]. simpl.
  rewrite (H a) by left. apply IH. intros b Hb. apply H. right. exact Hb.
Qed.

Lemma filter_first_match (f : record -> bool) (pre : list record) m post :
  (forall a, a ∈ pre -> f a = false) -> f m = true ->
  List.filter f (pre ++ m :: post)%list = m :: List.filter f post.
Proof.
  intros Hpre Hm. rewrite List.filter_app, (filter_no_match f pre Hpre).
  simpl. rewrite Hm. reflexivity.
Qed.

Lemma py_eq_str (x : value) (id : string) :
  py_eq x (VStr id) = true <-> x = VStr id.
Proof.
  destruct x; simpl; split; intros H; try discriminate H.
  - apply String.eqb_eq in H. congruence.
  - injection H as ->. apply String.eqb_refl.
Qed.

Lemma same_signal_str (a r : record) (id : string) :
  r !! "signal_id" = Some (VStr id) ->
  same_signal a r = true <-> a !! "signal_id" = Some (VStr id).
Proof.
  intros Hr. unfold same_signal. rewrite Hr.
  destruct (a !! "signal_id") as [x|]; [|split; discriminate].
  rewrite py_eq_str. split; [intros ->; reflexivity | intros [= ->]; reflexivity].
Qed.

Lemma same_signal_str_false (a r : record) (id : string) :
  r !! "signal_id" = Some (VStr id) ->
  a !! "signal_id" <> Some (VStr id) -> same_signal a r = false.
Proof.
  intros Hr Ha. destruct (same_signal a r) eqn:H; [|reflexivity].
  apply (same_signal_str a r id Hr) in H. contradiction.
Qed.

(** C5: on source records whose identifier is a string and assets that
    carry an identifier, the asset merge does not raise; a source record
    whose identifier no asset has is left as it is; otherwise the values of
    ["location"], ["location_name"], ["primary_st"] and ["cross_st"] of the
    first asset with that identifier (in the order of the asset list) are
    copied onto the record, whether one asset or several have it, and no
    other field of the record changes. *)
Theorem merge_copies_fields_of_first_match recs assets :
  Forall (fun r => exists id, r !! "signal_id" = Some (VStr id)) recs ->
  Forall (fun a => is_Some (a !! "signal_id")) assets ->
  exists recs',
    merge_signal_asset_data recs assets = Ok recs' /\
    length recs' = length recs /\
    forall i r r' id,
      recs !! i = Some r -> recs' !! i = Some r' ->
      r !! "signal_id" = Some (VStr id) ->
      ((forall a, a ∈ assets -> a !! "signal_id" <> Some (VStr id)) -> r' = r) /\
      (forall (pre : list record) (m : record) (post : list record),
         assets = (pre ++ m :: post)%list ->
         (forall a, a ∈ pre -> a !! "signal_id" <> Some (VStr id)) ->
         m !! "signal_id" = Some (VStr id) ->
         (forall v, m !! "location" = Some v -> r' !! "location" = Some v) /\
         (forall v, m !! "location_name" = Some v -> r' !! "location_name" = Some v) /\
         (forall v, m !! "primary_st" = Some v -> r' !! "primary_st" = Some v) /\
         (forall v, m !! "cross_st" = Some v -> r' !! "cross_st" = Some v) /\
         (forall k, k <> "location" -> k <> "location_name" ->
                    k <> "primary_st" -> k <> "cross_st" -> r' !! k = r !! k)).
Proof.
  intros Hrecs Hassets.
  destruct (mapM_total (merge_one assets) recs) as [recs' Hrun].
  { eapply Forall_impl; [exact Hrecs|]. intros r [id Hr]. unfold merge_one.
    destruct (matching_assets_total assets r (ex_intro _ _ Hr) Hassets) as [l ->].
    destruct l; simpl; eauto. }
  exists recs'. split; [exact Hrun|]. split; [exact (mapM_Ok_length _ _ _ Hrun)|].
  intros i r r' id Hi Hi' Hid.
  pose proof (mapM_Ok_lookup _ _ _ _ _ _ Hrun Hi Hi') as Hone.
  apply merge_one_Ok in Hone. split.
  - intros Hnone. rewrite filter_no_match in Hone; [exact Hone|].
    intros a Ha. apply (same_signal_str_false a r id Hid), Hnone, Ha.
  - intros pre m post -> Hpre Hm.
    rewrite (filter_first_match (fun a => same_signal a r) pre m post) in Hone.
    + subst r'.
      assert (Hcopy : forall k v,
                k ∈ ["location"; "location_name"; "primary_st"; "cross_st"] ->
                m !! k = Some v ->
                update_from asset_fields m r !! k = Some v).
      { intros k v Hk Hv. rewrite (update_from_lookup_in _ _ _ _ Hk).
        unfold dict_get. rewrite Hv. reflexivity. }
      split; [|split; [|split; [|split]]].
      * intros v. apply Hcopy. set_solver.
      * intros v. apply Hcopy. set_solver.
      * intros v. apply Hcopy. set_solver.
      * intros v. apply Hcopy. set_solver.
      * intros k H1 H2 H3 H4. apply update_from_lookup_notin.
        unfold asset_fields. intros Hin.
        repeat (apply elem_of_cons in Hin as [Hin|Hin]; [congruence|]).
        apply elem_of_nil in Hin. exact Hin.
    + intros a Ha. apply (same_signal_str_false a r id Hid), Hpre, Ha.
    + apply (same_signal_str m r id Hid), Hm.
Qed.

(** C9: when the first matching asset lacks one of the four descriptive
    fields, the merge still writes that key on the source record, with the
    value [None]. *)
Theorem merge_writes_None_for_missing_field
  recs assets recs' i r r' (pre : list record) (m : record) (post : list record) k :
  merge_signal_asset_data recs assets = Ok recs' ->
  recs !! i = Some r -> recs' !! i = Some r' ->
  assets = (pre ++ m :: post)%list ->
  (forall a, a ∈ pre -> same_signal a r = false) ->
  same_signal m r = true ->
  k ∈ asset_fields -> m !! k = None ->
  r' !! k = Some VNone.
Proof.
  intros Hrun Hi Hi' -> Hpre Hm Hk Hmiss.
  pose proof (mapM_Ok_lookup _ _ _ _ _ _ Hrun Hi Hi') as Hone.
  apply merge_one_Ok in Hone.
  rewrite (filter_first_match _ _ _ _ Hpre Hm) in Hone. subst r'.
  rewrite (update_from_lookup_in _ _ _ _ Hk). unfold dict_get. rewrite Hmiss. reflexivity.
Qed.

(** C10: a normalisation pass that completes leaves as many records as
    it found, in the same positions, and changes no field of any record
    other than the fields it is meant to write. *)
Theorem passes_keep_records_and_other_fields (p : pass) recs recs' :
  run_pass lib p recs = Ok recs' ->
  length recs' = length recs /\
  forall i r r' k,
    recs !! i = Some r -> recs' !! i = Some r' ->
    k ∉ designated p -> r' !! k = r !! k.
Proof.
  destruct p as [|assets| |clock tick| |]; simpl; intros Hrun.
  - split; [exact (mapM_Ok_length _ _ _ Hrun)|]. intros i r r' k Hi Hi' Hk.
    apply (mapM_Ok_lookup _ _ _ _ _ _ Hrun Hi) in Hi'.
    apply stringify_one_Ok in Hi' as (v & _ & ->).
    apply lookup_insert_ne. intros <-. apply Hk. left.
  - split; [exact (mapM_Ok_length _ _ _ Hrun)|]. intros i r r' k Hi Hi' Hk.
    apply (mapM_Ok_lookup _ _ _ _ _ _ Hrun Hi) in Hi'.
    exact (merge_one_frame _ _ _ _ Hi' Hk).
  - split; [exact (mapM_Ok_length _ _ _ Hrun)|]. intros i r r' k Hi Hi' Hk.
    apply (mapM_Ok_lookup _ _ _ _ _ _ Hrun Hi) in Hi'.
    apply localize_one_Ok in Hi' as (v & dt & _ & _ & ->).
    apply lookup_insert_ne. intros <-. apply Hk. left.
  - injection Hrun as <-. split; [apply set_processed_datetime_length|].
    intros i r r' k Hi Hi' Hk.
    rewrite (set_processed_datetime_lookup _ _ _ _ _ _ Hi) in Hi'.
    injection Hi' as <-. apply lookup_insert_ne. intros <-. apply Hk. left.
  - split; [exact (mapM_Ok_length _ _ _ Hrun)|]. intros i r r' k Hi Hi' Hk.
    apply (mapM_Ok_lookup _ _ _ _ _ _ Hrun Hi) in Hi'.
    exact (convert_keys_frame _ _ _ _ _ Hi' Hk).
  - split; [exact (mapM_Ok_length _ _ _ Hrun)|]. intros i r r' k Hi Hi' Hk.
    apply (mapM_Ok_lookup _ _ _ _ _ _ Hrun Hi) in Hi'.
    apply (format_one_frame _ _ _ _ Hi'). intros ->. apply Hk. left.
Qed.

End Normalizer.

(** ** Timestamps, coercion and locations *)

Section Fields.

Context (lib : library).

Implicit Types (r : record) (k : string) (recs : list record).

(** C6: every record whose [operation_state_datetime] is a naive
    datetime gets, in its place, the string [YYYY-MM-DDTHH:mm:ss] made of
    the digits of its own date and time fields: nineteen characters, no
    offset or zone after the seconds, and reading the string back gives the
    fields of the input; 2024-01-15 08:30:00 gives "2024-01-15T08:30:00". *)
Theorem localize_writes_iso_seconds recs (dts : list datetime) :
  Forall2 (fun r d => r !! "operation_state_datetime" = Some (VDateTime d) /\
                      valid_datetime d) recs dts ->
  localize_operation_state_datetime lib recs "operation_state_datetime" "US/Central" =
    Ok (zip_with
          (fun r d => <["operation_state_datetime" := VStr (spec_iso_seconds d)]> r)
          recs dts)
  /\ Forall (fun d =>
       String.length (spec_iso_seconds d) = 19 /\
       read_iso_seconds (spec_iso_seconds d) =
         Some (year d, month d, day d, hour d, minute d, second d)) dts
  /\ spec_iso_seconds (DateTime 2024 1 15 8 30 0 0) = "2024-01-15T08:30:00".
Proof.
  intros H. split; [|split; [|reflexivity]].
  - apply mapM_Ok_Forall2.
    induction H as [|r d recs dts [Hr Hd] _ IH]; simpl; constructor; [|exact IH].
    unfold localize_one, getitem. rewrite Hr. simpl.
    unfold arrow_replace_tzinfo. cbn [a_fields].
    rewrite arrow_format_iso by exact Hd. reflexivity.
  - induction H as [|r d recs dts [_ Hd] _ IH]; constructor; [|exact IH].
    split; [reflexivity | exact (read_spec_iso_seconds d Hd)].
Qed.

Lemma convert_keys_int keys r r' k :
  foldM (convert_key lib) keys r = Ok r' -> k ∈ keys ->
  exists z, r' !! k = Some (VInt z).
Proof.
  revert r. induction keys as [|k0 keys IH]; intros r H Hk; simpl in H.
  - apply elem_of_nil in Hk. contradiction.
  - bind_ok H. destruct (decide (k ∈ keys)) as [Hin|Hnot]; [exact (IH _ H Hin)|].
    apply elem_of_cons in Hk as [->|Hk]; [|contradiction].
    apply convert_key_Ok in E as (v & z & _ & _ & ->).
    exists z. rewrite (convert_keys_frame lib _ _ _ _ H Hnot). apply lookup_insert_eq.
Qed.

Lemma convert_keys_fixed keys r :
  (forall k, k ∈ keys -> exists z, r !! k = Some (VInt z)) ->
  foldM (convert_key lib) keys r = Ok r.
Proof.
  induction keys as [|k0 keys IH]; intros H; [reflexivity|]. simpl.
  destruct (H k0) as [z Hz]; [left|].
  unfold convert_key, getitem. rewrite Hz. simpl. rewrite insert_id by exact Hz.
  apply IH. intros k Hk. apply H. right. exact Hk.
Qed.

Lemma py_int_number v :
  is_Some (as_number v) -> exists z, py_int lib v = Ok z.
Proof.
  destruct v; simpl; intros [x Hx]; try discriminate Hx; eauto.
  unfold float_exact in Hx. unfold float_trunc.
  destruct f; try discriminate Hx; eauto.
Qed.

(** C7: [convert_decimals] completes on records that hold numbers (int,
    bool or Decimal) in [operation_state] and [plan_id]; whenever it
    completes, every record holds an integer in both fields, namely [int]
    of the value it held before, and no other field has changed; [int] of
    the decimal 2.0 is the integer 2. *)
Theorem convert_decimals_makes_integers recs :
  (Forall (fun r => exists a b,
             r !! "operation_state" = Some a /\ r !! "plan_id" = Some b /\
             is_Some (as_number a) /\ is_Some (as_number b)) recs ->
   exists recs', convert_decimals lib recs ["operation_state"; "plan_id"] = Ok recs') /\
  (forall recs',
     convert_decimals lib recs ["operation_state"; "plan_id"] = Ok recs' ->
     length recs' = length recs /\
     forall i r r', recs !! i = Some r -> recs' !! i = Some r' ->
       (exists v z, r !! "operation_state" = Some v /\ py_int lib v = Ok z /\
                    r' !! "operation_state" = Some (VInt z)) /\
       (exists v z, r !! "plan_id" = Some v /\ py_int lib v = Ok z /\
                    r' !! "plan_id" = Some (VInt z)) /\
       (forall k, k <> "operation_state" -> k <> "plan_id" -> r' !! k = r !! k)) /\
  py_int lib (VDec (Decimal false 20 (-1))) = Ok 2%Z.
Proof.
  split; [|split; [|reflexivity]].
  - intros Hnum. apply mapM_total. eapply Forall_impl; [exact Hnum|].
    intros r (a & b & Ha & Hb & Na & Nb).
    destruct (py_int_number a Na) as [x Hx]. destruct (py_int_number b Nb) as [y Hy].
    exists (<["plan_id" := VInt y]> (<["operation_state" := VInt x]> r)).
    simpl. unfold convert_key at 2, getitem. rewrite Ha. simpl. rewrite Hx. simpl.
    unfold convert_key, getitem. rewrite lookup_insert_ne by discriminate.
    rewrite Hb. simpl. rewrite Hy. reflexivity.
  - intros recs' Hrun. split; [exact (mapM_Ok_length _ _ _ Hrun)|].
    intros i r r' Hi Hi'.
    pose proof (mapM_Ok_lookup _ _ _ _ _ _ Hrun Hi Hi') as Hone. simpl in Hone.
    bind_ok Hone. bind_ok Hone. injection Hone as <-.
    apply convert_key_Ok in E as (v1 & z1 & Hv1 & Hz1 & ->).
    apply convert_key_Ok in E0 as (v2 & z2 & Hv2 & Hz2 & ->).
    rewrite lookup_insert_ne in Hv2 by discriminate.
    split; [|split].
    + exists v1, z1. split; [exact Hv1|]. split; [exact Hz1|].
      rewrite lookup_insert_ne by discriminate. apply lookup_insert_eq.
    + exists v2, z2. split; [exact Hv2|]. split; [exact Hz2|]. apply lookup_insert_eq.
    + intros k H1 H2. rewrite !lookup_insert_ne by congruence. reflexivity.
Qed.

Lemma format_one_dict r (d : record) :
  r !! "location" = Some (VDict d) ->
  format_one lib r =
    Ok (if py_bool (dict_get d "latitude" VNone) && py_bool (dict_get d "longitude" VNone)
        then <["location" := VStr ("(" +:+ py_str lib (dict_get d "longitude" VNone) +:+
                                   ", " +:+ py_str lib (dict_get d "latitude" VNone) +:+ ")")]> r
        else r).
Proof.
  intros Hr. unfold format_one, dict_get at 1 2. rewrite Hr. simpl.
  destruct (py_bool _ && py_bool _); reflexivity.
Qed.

Lemma format_one_absent r :
  r !! "location" = None -> format_one lib r = Ok r.
Proof.
  intros Hr. unfold format_one, dict_get at 1 2. rewrite Hr. reflexivity.
Qed.

(** C3 as amended: on records whose [location] is absent or a mapping,
    [format_locations] completes; it replaces [location] by the string
    "(lon, lat)", made of [str] of the two components, when the mapping has
    a latitude and a longitude that both count as true, and leaves the
    record as it was when the field is absent, when a component is missing,
    or when a component counts as false.  The floats 30.1 and -97.7, which
    Python prints as "30.1" and "-97.7", give "(-97.7, 30.1)", and the empty
    mapping stays. *)
Theorem format_locations_on_truthy_pairs recs :
  Forall (fun r => r !! "location" = None \/
                   exists d : record, r !! "location" = Some (VDict d)) recs ->
  (exists recs',
    format_locations lib recs = Ok recs' /\
    length recs' = length recs /\
    forall i r r', recs !! i = Some r -> recs' !! i = Some r' ->
      (forall (d : record) lat lon,
         r !! "location" = Some (VDict d) ->
         d !! "latitude" = Some lat -> d !! "longitude" = Some lon ->
         py_bool lat = true -> py_bool lon = true ->
         r' = <["location" := VStr ("(" +:+ py_str lib lon +:+ ", " +:+
                                    py_str lib lat +:+ ")")]> r) /\
      (r !! "location" = None -> r' = r) /\
      (forall d : record,
         r !! "location" = Some (VDict d) ->
         d !! "latitude" = None \/ d !! "longitude" = None -> r' = r) /\
      (forall (d : record) lat lon,
         r !! "location" = Some (VDict d) ->
         d !! "latitude" = Some lat -> d !! "longitude" = Some lon ->
         py_bool lat = false \/ py_bool lon = false -> r' = r))
  /\ (float_str lib float_30_1 = "30.1" -> float_str lib float_neg_97_7 = "-97.7" ->
      format_locations lib
        [<["location" := VDict (<["latitude" := VFloat float_30_1]>
                                  (<["longitude" := VFloat float_neg_97_7]> ∅))]> ∅] =
        Ok [<["location" := VStr "(-97.7, 30.1)"]> ∅])
  /\ format_locations lib [<["location" := VDict ∅]> ∅] =
       Ok [<["location" := VDict ∅]> ∅].
Proof.
  intros Hall. split; [|split; [|reflexivity]].
  2: { intros Hlat Hlon. apply mapM_Ok_Forall2. constructor; [|constructor].
       rewrite (format_one_dict
                  (<["location" := VDict (<["latitude" := VFloat float_30_1]>
                                            (<["longitude" := VFloat float_neg_97_7]> ∅))]> ∅)
                  (<["latitude" := VFloat float_30_1]> (<["longitude" := VFloat float_neg_97_7]> ∅)))
         by apply lookup_insert_eq.
       change (dict_get (<["latitude" := VFloat float_30_1]>
                           (<["longitude" := VFloat float_neg_97_7]> ∅)) "latitude" VNone)
         with (VFloat float_30_1).
       change (dict_get (<["latitude" := VFloat float_30_1]>
                           (<["longitude" := VFloat float_neg_97_7]> ∅)) "longitude" VNone)
         with (VFloat float_neg_97_7).
       change (py_bool (VFloat float_30_1) && py_bool (VFloat float_neg_97_7)) with true.
       cbn [py_str]. rewrite Hlat, Hlon. reflexivity. }
  destruct (mapM_total (format_one lib) recs) as [recs' Hrun].
  { eapply Forall_impl; [exact Hall|]. intros r [Hr|[d Hr]].
    - rewrite (format_one_absent r Hr). eauto.
    - rewrite (format_one_dict r d Hr). eauto. }
  exists recs'. split; [exact Hrun|]. split; [exact (mapM_Ok_length _ _ _ Hrun)|].
  intros i r r' Hi Hi'.
  pose proof (mapM_Ok_lookup _ _ _ _ _ _ Hrun Hi Hi') as Hone.
  repeat split.
  - intros d lat lon Hr Hlat Hlon Tlat Tlon.
    rewrite (format_one_dict r d Hr) in Hone. unfold dict_get in Hone.
    rewrite Hlat, Hlon, Tlat, Tlon in Hone. injection Hone as <-. reflexivity.
  - intros Hr. rewrite (format_one_absent r Hr) in Hone. congruence.
  - intros d Hr Hmiss. rewrite (format_one_dict r d Hr) in Hone. unfold dict_get in Hone.
    destruct Hmiss as [Hm|Hm]; rewrite Hm in Hone; simpl in Hone.
    + congruence.
    + rewrite andb_false_r in Hone. congruence.
  - intros d lat lon Hr Hlat Hlon Hfalse.
    rewrite (format_one_dict r d Hr) in Hone. unfold dict_get in Hone.
    rewrite Hlat, Hlon in Hone.
    destruct Hfalse as [Hf|Hf]; rewrite Hf in Hone.
    + simpl in Hone. congruence.
    + rewrite andb_false_r in Hone. congruence.
Qed.

End Fields.

(** ** Running a pass twice *)

Section Idempotence.

Context (lib : library).

Implicit Types (r : record) (recs : list record).

Lemma mapM_fixed {A : Type} (f : A -> result A) (l k : list A) :
  (forall x y, f x = Ok y -> f y = Ok y) ->
  mapM f l = Ok k -> mapM f k = Ok k.
Proof.
  intros Hf H. apply mapM_Ok_Forall2 in H. apply mapM_Ok_Forall2.
  induction H as [|x y l k Hxy _ IH]; constructor; eauto.
Qed.

Lemma stringify_one_fixed key r r' :
  stringify_one lib key r = Ok r' -> stringify_one lib key r' = Ok r'.
Proof.
  intros H. apply stringify_one_Ok in H as (v & _ & ->).
  unfold stringify_one, getitem. rewrite lookup_insert_eq. simpl.
  rewrite insert_insert_eq. reflexivity.
Qed.

Lemma convert_keys_twice keys r r' :
  foldM (convert_key lib) keys r = Ok r' -> foldM (convert_key lib) keys r' = Ok r'.
Proof.
  intros H. apply convert_keys_fixed. intros k Hk.
  exact (convert_keys_int lib keys r r' k H Hk).
Qed.

Lemma attr_get_Ok v k x : attr_get v k = Ok x -> exists d : record, v = VDict d.
Proof. destruct v; simpl; intros H; try discriminate H. eauto. Qed.

Lemma format_one_twice r r' :
  format_one lib r = Ok r' ->
  (r' = r /\ format_one lib r' = Ok r') \/
  (r' <> r /\ format_one lib r' = Raise AttributeError).
Proof.
  intros H. pose proof H as Hrun. unfold format_one in H.
  bind_ok H. bind_ok H.
  destruct (py_bool a && py_bool a0); injection H as <-; [right|left; auto].
  apply attr_get_Ok in E as [d Hd]. split.
  - intros Heq. apply (f_equal (fun m => dict_get m "location" (VDict ∅))) in Heq.
    unfold dict_get in Heq at 1. rewrite lookup_insert_eq in Heq.
    rewrite Hd in Heq. discriminate Heq.
  - unfold format_one, dict_get. rewrite lookup_insert_eq. reflexivity.
Qed.

Lemma format_locations_twice recs recs' :
  format_locations lib recs = Ok recs' ->
  (recs' = recs /\ format_locations lib recs' = Ok recs') \/
  (recs' <> recs /\ format_locations lib recs' = Raise AttributeError).
Proof.
  unfold format_locations. intros H. apply mapM_Ok_Forall2 in H.
  induction H as [|r r' recs recs' Hr _ IH]; [left; auto|].
  rewrite mapM_cons.
  destruct (format_one_twice r r' Hr) as [[-> Hfix]|[Hne Hraise]].
  - rewrite Hfix. destruct IH as [[-> Hall]|[Hdiff Hall]]; rewrite Hall.
    + left. auto.
    + right. split; [congruence | reflexivity].
  - rewrite Hraise. right. split; [congruence | reflexivity].
Qed.

(** C4 as amended: identifier stringification and type coercion are
    idempotent; location formatting, run on its own result, leaves it
    unchanged when the first run formatted nothing and raises
    AttributeError when the first run formatted some location. *)
Theorem stringify_and_convert_idempotent_format_raises recs :
  idempotent_on (fun l => stringify_signal_ids lib l "signal_id") recs /\
  idempotent_on (fun l => convert_decimals lib l ["operation_state"; "plan_id"]) recs /\
  (forall recs', format_locations lib recs = Ok recs' ->
     (recs' = recs /\ format_locations lib recs' = Ok recs') \/
     (recs' <> recs /\ format_locations lib recs' = Raise AttributeError)).
Proof.
  split; [|split].
  - intros recs'. apply mapM_fixed. intros x y. apply stringify_one_fixed.
  - intros recs'. apply mapM_fixed. intros x y. apply convert_keys_twice.
  - apply format_locations_twice.
Qed.

End Idempotence.

(** ** The orchestrator *)

Section Orchestration.

Context (lib : library) (cfg : config) (E : env).

(** Unfolds [main] down to the calls of the world and of the passes. *)
Ltac run_main :=
  unfold main, get_kits_signal_status, get_socrata_data, logger_info, stamp,
    emit, lift;
  unfold mbind, io_bind; cbn [trace ticks].

(** Replaces the outcome of the next operations by what is known of them. *)
Ltac known_outcomes :=
  repeat match goal with
         | H : _ = Ok _ |- _ => rewrite H; cbn [trace ticks fst snd]
         | H : _ = Raise _ |- _ => rewrite H; cbn [trace ticks fst snd]
         end.

Lemma ops_prefix_ok (v : run_values) (n : nat) (o : op) (k : nat) :
  Forall (op_ok lib cfg E v) (take n ops) -> k < n -> ops !! k = Some o ->
  op_ok lib cfg E v o.
Proof.
  intros Hall Hk Ho. rewrite Forall_lookup in Hall. apply (Hall k).
  rewrite lookup_take_lt by exact Hk. exact Ho.
Qed.

(** C8: when any operation before the write raises, the operations
    before it having succeeded, [main] ends with that very exception and
    its trace holds no write call. *)
Theorem failure_before_write_propagates (v : run_values) (n : nat) (o : op) (e : exn) :
  ops !! n = Some o ->
  Forall (op_ok lib cfg E v) (take n ops) ->
  op_raises lib cfg E v o e ->
  exists w,
    main lib cfg E (World [] 0) = (Raise e, w) /\ upserts (trace w) = [].
Proof.
  intros Ho Hpre Hraise.
  destruct n as [|[|[|[|[|[|[|[|[|[|[|n]]]]]]]]]]]; try discriminate Ho;
    injection Ho as <-; unfold op_raises in Hraise; cbn in Hraise.
  all: repeat match goal with
       | H : Forall _ (take ?k ops) |- _ =>
           let rec go j :=
             lazymatch j with
             | O => idtac
             | S ?j' =>
                 let Hj := fresh "Hstep" in
                 assert (Hj := ops_prefix_ok v k _ j' H ltac:(lia) eq_refl);
                 unfold op_ok in Hj; cbn in Hj; go j'
             end in
           go k; clear H
       end.
  all: run_main; known_outcomes.
  all: try (destruct (set_processed_datetime _ _ _ _) as [stamped tick] eqn:Hst;
            cbn [fst] in *; known_outcomes).
  all: eexists; split; [reflexivity | reflexivity].
Qed.

Lemma ops_all_ok (v : run_values) (o : op) :
  Forall (op_ok lib cfg E v) ops -> o ∈ ops -> op_ok lib cfg E v o.
Proof. intros Hall Ho. rewrite Forall_forall in Hall. exact (Hall o Ho). Qed.

Lemma deletes_of_scenario (s pub : list record) :
  has_ids s ["101"; "102"] -> has_ids pub ["101"; "103"] ->
  identify_deletes s pub = Ok [deletion_marker (VStr "103")].
Proof.
  intros Hs Hpub. unfold identify_deletes.
  rewrite (getitem_ids _ _ Hs), (getitem_ids _ _ Hpub). reflexivity.
Qed.

(** C2: in a run whose operations before the write all succeed, [main]
    makes one write call; its payload is the fully normalised source
    records followed by the deletion markers, so it is as long as the
    source rows and the markers together; [main] ends as the write call
    ends.  With source identifiers 101 and 102 and published identifiers
    101 and 103 the only marker is the mapping of ["signal_id"] to "103"
    and of [":deleted"] to [True], and the payload has three entries. *)
Theorem main_writes_upserts_then_deletes (v : run_values) :
  Forall (op_ok lib cfg E v) ops ->
  exists w,
    main lib cfg E (World [] 0) =
      (socrata_upsert E SIGNAL_STATUS_RESOURCE_ID (rv_formatted v ++ rv_deletes v)%list, w) /\
    upserts (trace w) =
      [(SIGNAL_STATUS_RESOURCE_ID, (rv_formatted v ++ rv_deletes v)%list)] /\
    length (rv_formatted v) = length (rv_rows v) /\
    length (rv_formatted v ++ rv_deletes v)%list =
      length (rv_rows v) + length (rv_deletes v) /\
    (has_ids (rv_stringified v) ["101"; "102"] ->
     has_ids (rv_published v) ["101"; "103"] ->
     rv_deletes v = [<["signal_id" := VStr "103"]> (<[":deleted" := VBool true]> ∅)] /\
     length (rv_formatted v ++ rv_deletes v)%list = 3).
Proof.
  intros Hall.
  assert (H1 := ops_all_ok v OpQuery Hall ltac:(set_solver)).
  assert (H2 := ops_all_ok v OpStringify Hall ltac:(set_solver)).
  assert (H3 := ops_all_ok v OpReadPublished Hall ltac:(set_solver)).
  assert (H4 := ops_all_ok v OpIdentifyDeletes Hall ltac:(set_solver)).
  assert (H5 := ops_all_ok v OpListIds Hall ltac:(set_solver)).
  assert (H6 := ops_all_ok v OpJoinIds Hall ltac:(set_solver)).
  assert (H7 := ops_all_ok v OpReadAssets Hall ltac:(set_solver)).
  assert (H8 := ops_all_ok v OpMerge Hall ltac:(set_solver)).
  assert (H9 := ops_all_ok v OpLocalize Hall ltac:(set_solver)).
  assert (H10 := ops_all_ok v OpConvert Hall ltac:(set_solver)).
  assert (H11 := ops_all_ok v OpFormat Hall ltac:(set_solver)).
  clear Hall. unfold op_ok in *. cbn [op_run projT2 fst snd] in *.
  assert (Hlen : length (rv_formatted v) = length (rv_rows v)).
  { rewrite (mapM_Ok_length _ _ _ H11), (mapM_Ok_length _ _ _ H10).
    rewrite set_processed_datetime_length.
    rewrite (mapM_Ok_length _ _ _ H9), (mapM_Ok_length _ _ _ H8).
    exact (mapM_Ok_length _ _ _ H2). }
  assert (Hpayload : length (rv_formatted v ++ rv_deletes v)%list =
                     length (rv_rows v) + length (rv_deletes v)).
  { rewrite length_app, Hlen. reflexivity. }
  destruct (set_processed_datetime (clock E) "US/Central" 0 (rv_localized v))
    as [stamped tick] eqn:Hst.
  cbn [fst] in H10.
  eexists. split; [|split; [|split; [exact Hlen|split; [exact Hpayload|]]]].
  - run_main. rewrite H1. cbn [trace ticks]. rewrite H2. rewrite H3. cbn [trace ticks].
    rewrite H4. cbn [trace ticks]. rewrite H5. rewrite H6. rewrite H7. cbn [trace ticks].
    rewrite H8. rewrite H9. rewrite Hst. rewrite H10. rewrite H11. cbn [trace ticks].
    reflexivity.
  - reflexivity.
  - intros Hs Hpub. pose proof (deletes_of_scenario _ _ Hs Hpub) as Hd.
    rewrite H4 in Hd. injection Hd as Hd. split; [exact Hd|].
    rewrite Hpayload, Hd, <- (mapM_Ok_length _ _ _ H2).
    apply Forall2_length in Hs. rewrite Hs. reflexivity.
Qed.

End Orchestration.

(** ** The properties at work on the sample data *)

Lemma identify_deletes_sample :
  has_ids sample_stringified ["101"; "102"] /\
  has_ids sample_published_set ["101"; "103"] /\
  identify_deletes sample_stringified sample_published_set =
    Ok [<["signal_id" := VStr "103"]> (<[":deleted" := VBool true]> ∅)].
Proof.
  assert (HS : has_ids sample_stringified ["101"; "102"])
    by (repeat constructor).
  assert (HP : has_ids sample_published_set ["101"; "103"])
    by (repeat constructor).
  split; [exact HS|]. split; [exact HP|].
  exact (proj1 (identify_deletes_published_minus_source _ _ _ _ HS HP)).
Defined.

Lemma sample_run_ok : Forall (op_ok sample_lib sample_config sample_env sample_values) ops.
Proof. repeat constructor. Defined.

Lemma main_sample_run :
  Forall (op_ok sample_lib sample_config sample_env sample_values) ops /\
  has_ids (rv_stringified sample_values) ["101"; "102"] /\
  has_ids (rv_published sample_values) ["101"; "103"] /\
  exists w,
    main sample_lib sample_config sample_env (World [] 0) = (Ok tt, w) /\
    upserts (trace w) =
      [(SIGNAL_STATUS_RESOURCE_ID,
        (rv_formatted sample_values ++
         [<["signal_id" := VStr "103"]> (<[":deleted" := VBool true]> ∅)])%list)] /\
    length (rv_formatted sample_values) = 2 /\
    length (rv_formatted sample_values ++ rv_deletes sample_values)%list = 3.
Proof.
  assert (Hs : has_ids (rv_stringified sample_values) ["101"; "102"])
    by (repeat constructor).
  assert (Hp : has_ids (rv_published sample_values) ["101"; "103"])
    by (repeat constructor).
  split; [exact sample_run_ok|]. split; [exact Hs|]. split; [exact Hp|].
  destruct (main_writes_upserts_then_deletes
              sample_lib sample_config sample_env sample_values sample_run_ok)
    as (w & Hmain & Hwrites & Hrows & _ & Hscenario).
  destruct (Hscenario Hs Hp) as [Hdeletes Hthree].
  exists w. rewrite Hdeletes in Hwrites.
  split; [exact Hmain|]. split; [exact Hwrites|]. split; [exact Hrows | exact Hthree].
Defined.

Lemma merge_sample :
  Forall (fun r : record => exists id, r !! "signal_id" = Some (VStr id))
    sample_stringified /\
  Forall (fun a : record => is_Some (a !! "signal_id")) [sample_asset "101"] /\
  sample_asset "101" !! "signal_id" = Some (VStr "101") /\
  sample_asset "101" !! "location_name" = Some (VStr "Main & 5th") /\
  exists recs',
    merge_signal_asset_data sample_stringified [sample_asset "101"] = Ok recs' /\
    recs' !! 0 ≫= (fun r : record => r !! "location_name") =
      Some (VStr "Main & 5th") /\
    recs' !! 0 ≫= (fun r : record => r !! "location") = Some (VDict sample_point) /\
    recs' !! 1 = Some (<["signal_id" := VStr "102"]> (sample_row 102)).
Proof.
  assert (H1 : Forall (fun r : record => exists id, r !! "signal_id" = Some (VStr id))
                 sample_stringified)
    by (repeat constructor; eexists; reflexivity).
  assert (H2 : Forall (fun a : record => is_Some (a !! "signal_id")) [sample_asset "101"])
    by (repeat constructor; eexists; reflexivity).
  assert (Hid : sample_asset "101" !! "signal_id" = Some (VStr "101")) by reflexivity.
  assert (Hname : sample_asset "101" !! "location_name" = Some (VStr "Main & 5th"))
    by reflexivity.
  split; [exact H1|]. split; [exact H2|]. split; [exact Hid|]. split; [exact Hname|].
  destruct (merge_copies_fields_of_first_match _ _ H1 H2) as (recs' & Hrun & Hlen & Hall).
  exists recs'. split; [exact Hrun|].
  destruct (lookup_lt_is_Some_2 recs' 0) as [r0 Hr0]; [rewrite Hlen; simpl; lia|].
  destruct (lookup_lt_is_Some_2 recs' 1) as [r1 Hr1]; [rewrite Hlen; simpl; lia|].
  destruct (Hall 0 _ r0 "101" eq_refl Hr0 eq_refl) as [_ Hmatch].
  destruct (Hmatch [] (sample_asset "101") [] eq_refl) as (Hloc & Hnm & _).
  { intros a Ha. apply elem_of_nil in Ha. contradiction. }
  { exact Hid. }
  destruct (Hall 1 _ r1 "102" eq_refl Hr1 eq_refl) as [Hsame _].
  rewrite Hr0, Hr1. simpl.
  split; [exact (Hnm _ Hname)|]. split; [exact (Hloc _ eq_refl)|].
  f_equal. apply Hsame. intros a Ha. apply list_elem_of_singleton in Ha as ->.
  rewrite Hid. intros H. discriminate H.
Defined.

Lemma merge_sample_missing_street :
  merge_signal_asset_data sample_stringified [sample_asset "101"] =
    Ok (rv_merged sample_values) /\
  same_signal (sample_asset "101") (<["signal_id" := VStr "101"]> (sample_row 101)) = true /\
  sample_asset "101" !! "primary_st" = None /\
  rv_merged sample_values !! 0 ≫= (fun r : record => r !! "primary_st") = Some VNone.
Proof.
  assert (Hrun : merge_signal_asset_data sample_stringified [sample_asset "101"] =
                 Ok (rv_merged sample_values)) by reflexivity.
  assert (Hsame : same_signal (sample_asset "101")
                    (<["signal_id" := VStr "101"]> (sample_row 101)) = true)
    by reflexivity.
  assert (Hmiss : sample_asset "101" !! "primary_st" = None) by reflexivity.
  split; [exact Hrun|]. split; [exact Hsame|]. split; [exact Hmiss|].
  destruct (rv_merged sample_values !! 0) as [r'|] eqn:Hr'; [|discriminate Hr'].
  apply (merge_writes_None_for_missing_field
           sample_stringified [sample_asset "101"] (rv_merged sample_values) 0
           (<["signal_id" := VStr "101"]> (sample_row 101)) r'
           [] (sample_asset "101") [] "primary_st" Hrun eq_refl Hr' eq_refl).
  - intros a Ha. apply elem_of_nil in Ha. contradiction.
  - exact Hsame.
  - unfold asset_fields. repeat constructor.
  - exact Hmiss.
Defined.

Lemma convert_sample_pass :
  run_pass sample_lib ConvertDecimals [sample_row 101] =
    Ok [<["plan_id" := VInt 7]> (<["operation_state" := VInt 2]> (sample_row 101))] /\
  (length [<["plan_id" := VInt 7]> (<["operation_state" := VInt 2]> (sample_row 101))] =
     length [sample_row 101] /\
   forall i r r' k,
     [sample_row 101] !! i = Some r ->
     [<["plan_id" := VInt 7]> (<["operation_state" := VInt 2]> (sample_row 101))] !! i =
       Some r' ->
     k ∉ designated ConvertDecimals -> r' !! k = r !! k).
Proof.
  assert (Hrun : run_pass sample_lib ConvertDecimals [sample_row 101] =
    Ok [<["plan_id" := VInt 7]> (<["operation_state" := VInt 2]> (sample_row 101))])
    by reflexivity.
  split; [exact Hrun|].
  exact (passes_keep_records_and_other_fields sample_lib ConvertDecimals _ _ Hrun).
Defined.

Lemma localize_sample :
  Forall2 (fun (r : record) d =>
             r !! "operation_state_datetime" = Some (VDateTime d) /\ valid_datetime d)
    [sample_row 101] [sample_datetime] /\
  localize_operation_state_datetime sample_lib [sample_row 101]
    "operation_state_datetime" "US/Central" =
    Ok [<["operation_state_datetime" := VStr "2024-01-15T08:30:00"]> (sample_row 101)].
Proof.
  assert (H : Forall2 (fun (r : record) d =>
             r !! "operation_state_datetime" = Some (VDateTime d) /\ valid_datetime d)
    [sample_row 101] [sample_datetime]).
  { repeat constructor; unfold sample_datetime; simpl; lia. }
  split; [exact H|].
  exact (proj1 (localize_writes_iso_seconds sample_lib _ _ H)).
Defined.

Lemma convert_sample :
  convert_decimals sample_lib [sample_row 101] ["operation_state"; "plan_id"] =
    Ok [<["plan_id" := VInt 7]> (<["operation_state" := VInt 2]> (sample_row 101))] /\
  [<["plan_id" := VInt 7]> (<["operation_state" := VInt 2]> (sample_row 101))] !! 0
    ≫= (fun r : record => r !! "operation_state") = Some (VInt 2).
Proof.
  assert (Hrun : convert_decimals sample_lib [sample_row 101] ["operation_state"; "plan_id"] =
    Ok [<["plan_id" := VInt 7]> (<["operation_state" := VInt 2]> (sample_row 101))])
    by reflexivity.
  split; [exact Hrun|].
  destruct (convert_decimals_makes_integers sample_lib [sample_row 101])
    as (_ & Hdone & _).
  destruct (Hdone _ Hrun) as (_ & Hfields).
  destruct (Hfields 0 _ _ eq_refl eq_refl) as ((v & z & Hv & Hz & Hr') & _).
  injection Hv as <-. injection Hz as <-. exact Hr'.
Defined.

Lemma outage_aborts_without_write :
  ops !! 2 = Some OpReadPublished /\
  Forall (op_ok sample_lib sample_config outage_env sample_values) (take 2 ops) /\
  op_raises sample_lib sample_config outage_env sample_values OpReadPublished HTTPError /\
  exists w,
    main sample_lib sample_config outage_env (World [] 0) = (Raise HTTPError, w) /\
    upserts (trace w) = [].
Proof.
  assert (Hpre : Forall (op_ok sample_lib sample_config outage_env sample_values)
                   (take 2 ops)) by (repeat constructor).
  assert (Hraise : op_raises sample_lib sample_config outage_env sample_values
                     OpReadPublished HTTPError) by reflexivity.
  split; [reflexivity|]. split; [exact Hpre|]. split; [exact Hraise|].
  exact (failure_before_write_propagates sample_lib sample_config outage_env
           sample_values 2 OpReadPublished HTTPError eq_refl Hpre Hraise).
Defined.

Lemma format_locations_sample :
  Forall (fun r : record => r !! "location" = None \/
                   exists d : record, r !! "location" = Some (VDict d))
    [located_record; sample_row 102] /\
  float_str sample_lib float_30_1 = "30.1" /\
  float_str sample_lib float_neg_97_7 = "-97.7" /\
  (exists recs',
     format_locations sample_lib [located_record; sample_row 102] = Ok recs' /\
     recs' !! 0 = Some (<["location" := VStr "(-97.7, 30.1)"]> located_record) /\
     recs' !! 1 = Some (sample_row 102)) /\
  format_locations sample_lib
    [<["location" := VDict (<["latitude" := VFloat float_30_1]>
                              (<["longitude" := VFloat float_neg_97_7]> ∅))]> ∅] =
    Ok [<["location" := VStr "(-97.7, 30.1)"]> ∅].
Proof.
  assert (H : Forall (fun r : record => r !! "location" = None \/
                   exists d : record, r !! "location" = Some (VDict d))
    [located_record; sample_row 102]).
  { constructor; [right; eexists; reflexivity|].
    constructor; [left; reflexivity | constructor]. }
  assert (Hlat : float_str sample_lib float_30_1 = "30.1") by reflexivity.
  assert (Hlon : float_str sample_lib float_neg_97_7 = "-97.7") by reflexivity.
  split; [exact H|]. split; [exact Hlat|]. split; [exact Hlon|].
  destruct (format_locations_on_truthy_pairs sample_lib _ H)
    as ((recs' & Hrun & Hlen & Hall) & Hexample & _).
  split; [|exact (Hexample Hlat Hlon)].
  exists recs'. split; [exact Hrun|].
  destruct (lookup_lt_is_Some_2 recs' 0) as [r0 Hr0]; [rewrite Hlen; simpl; lia|].
  destruct (lookup_lt_is_Some_2 recs' 1) as [r1 Hr1]; [rewrite Hlen; simpl; lia|].
  destruct (Hall 0 _ r0 eq_refl Hr0) as (Hfmt & _).
  destruct (Hall 1 _ r1 eq_refl Hr1) as (_ & Hkeep & _).
  rewrite Hr0, Hr1. split; f_equal.
  - rewrite (Hfmt sample_point (VFloat float_30_1) (VFloat float_neg_97_7)
               eq_refl eq_refl eq_refl eq_refl eq_refl).
    cbn [py_str]. rewrite Hlat, Hlon. reflexivity.
  - apply Hkeep. reflexivity.
Defined.

Lemma stringify_convert_twice_sample :
  stringify_signal_ids sample_lib [sample_row 101] "signal_id" =
    Ok [<["signal_id" := VStr "101"]> (sample_row 101)] /\
  stringify_signal_ids sample_lib [<["signal_id" := VStr "101"]> (sample_row 101)]
    "signal_id" =
    Ok [<["signal_id" := VStr "101"]> (sample_row 101)] /\
  idempotent_on (fun l => convert_decimals sample_lib l ["operation_state"; "plan_id"])
    [sample_row 101].
Proof.
  pose proof (stringify_and_convert_idempotent_format_raises sample_lib [sample_row 101])
    as (Hstringify & Hconvert & _).
  assert (Hrun : stringify_signal_ids sample_lib [sample_row 101] "signal_id" =
                 Ok [<["signal_id" := VStr "101"]> (sample_row 101)])
    by reflexivity.
  split; [exact Hrun|]. split; [exact (Hstringify _ Hrun) | exact Hconvert].
Defined.

(** The asset merge writes [None] for a location the asset lacks, and
    location formatting raises on such a record. *)
Example format_locations_raises_on_None_location :
  format_locations sample_lib [<["location" := VNone]> (sample_row 101)] =
    Raise AttributeError.
Proof. reflexivity. Qed.

(** C3, counterexample: a record whose location has both components,
    the latitude being 0, is not given the string: the pass leaves it as it
    is. *)
Lemma format_locations_keeps_equator_point :
  ~ (forall (d : record) lat lon,
       equator_record !! "location" = Some (VDict d) ->
       d !! "latitude" = Some lat -> d !! "longitude" = Some lon ->
       format_locations sample_lib [equator_record] =
         Ok [<["location" := VStr ("(" +:+ py_str sample_lib lon +:+ ", " +:+
                                   py_str sample_lib lat +:+ ")")]> equator_record]).
Proof.
  intros H.
  specialize (H equator_point (VInt 0) (VFloat float_neg_97_7)
                eq_refl eq_refl eq_refl).
  apply (f_equal (fun x => match x with
                           | Ok [r] => r !! "location"
                           | _ => None
                           end)) in H.
  vm_compute in H. discriminate H.
Qed.

(** C4, counterexample: location formatting succeeds on a record with
    coordinates and raises AttributeError when run again on its result. *)
Lemma format_locations_not_idempotent :
  ~ idempotent_on (format_locations sample_lib) [located_record].
Proof.
  intros H.
  assert (Hfirst : format_locations sample_lib [located_record] =
                   Ok [<["location" := VStr "(-97.7, 30.1)"]> located_record])
    by (vm_compute; reflexivity).
  assert (Hsecond :
    format_locations sample_lib [<["location" := VStr "(-97.7, 30.1)"]> located_record] =
    Raise AttributeError) by (vm_compute; reflexivity).
  specialize (H _ Hfirst). rewrite Hsecond in H. discriminate H.
Qed.

(** ** Further properties: how the passes fail *)

Section Failures.

Context {A B : Type} (f : A -> result B).

Lemma mapM_Raise (l : list A) (e : exn) :
  mapM f l = Raise e -> Exists (fun x => f x = Raise e) l.
Proof.
  induction l as [|x l IH]; [discriminate|]. rewrite mapM_cons.
  destruct (f x) as [y|e'] eqn:Hx.
  - destruct (mapM f l) as [ys|e'] eqn:Hl; [discriminate|].
    intros [= <-]. right. apply IH. reflexivity.
  - intros [= <-]. left. exact Hx.
Qed.

Lemma mapM_outcome (l : list A) :
  match mapM f l with
  | Ok k => Forall2 (fun x y => f x = Ok y) l k
  | Raise e => Exists (fun x => f x = Raise e) l
  end.
Proof.
  destruct (mapM f l) as [k|e] eqn:H.
  - apply mapM_Ok_Forall2, H.
  - apply mapM_Raise, H.
Qed.

Lemma mapM_fails (l : list A) (e0 : exn) :
  (forall x e, f x = Raise e -> e = e0) ->
  Exists (fun x => f x = Raise e0) l -> mapM f l = Raise e0.
Proof.
  intros Honly Hex. destruct (mapM f l) as [k|e] eqn:H.
  - apply mapM_Ok_Forall2 in H. apply Exists_exists in Hex as (x & Hx & Hfx).
    apply list_elem_of_lookup_1 in Hx as [i Hi].
    destruct (Forall2_lookup_l _ _ _ _ _ H Hi) as (y & _ & Hy). congruence.
  - apply mapM_Raise, Exists_exists in H as (x & _ & Hx).
    rewrite (Honly x e Hx). reflexivity.
Qed.

End Failures.

Section PassFailures.

Context (lib : library).

Implicit Types (r : record) (k key : string) (recs : list record).

Lemma getitem_Raise r k e : getitem r k = Raise e <-> r !! k = None /\ e = KeyError k.
Proof.
  unfold getitem. destruct (r !! k); split.
  - discriminate.
  - intros [H _]. discriminate H.
  - intros [= <-]. auto.
  - intros [_ ->]. reflexivity.
Qed.

Lemma stringify_one_Raise key r e :
  stringify_one lib key r = Raise e -> r !! key = None /\ e = KeyError key.
Proof.
  unfold stringify_one, getitem. destruct (r !! key); simpl; [discriminate|].
  intros [= <-]. auto.
Qed.

(** X1: [stringify_signal_ids] either completes, and then every record
    had the key and holds [str] of its former value under it, the record
    being otherwise the same; or it raises, and then the exception is
    KeyError for that key and some record lacks the key. *)
Theorem stringify_completes_or_key_is_missing recs key :
  match stringify_signal_ids lib recs key with
  | Ok recs' =>
      Forall2 (fun r r' => exists v, r !! key = Some v /\
                                     r' = <[key := VStr (py_str lib v)]> r) recs recs'
  | Raise e => e = KeyError key /\ Exists (fun r => r !! key = None) recs
  end.
Proof.
  unfold stringify_signal_ids.
  pose proof (mapM_outcome (stringify_one lib key) recs) as H.
  destruct (mapM (stringify_one lib key) recs) as [recs'|e].
  - eapply Forall2_impl; [exact H|]. intros r r' Hr. apply stringify_one_Ok, Hr.
  - apply Exists_exists in H as (r & Hin & Hr).
    apply stringify_one_Raise in Hr as [Hnone ->]. split; [reflexivity|].
    apply Exists_exists. eauto.
Qed.

(** X2: [identify_deletes] raises only KeyError for ["signal_id"], and
    only when some source or published record lacks that key; when every
    record has it, the call completes. *)
Theorem identify_deletes_raises_only_on_missing_id (S P : list record) :
  (forall e, identify_deletes S P = Raise e ->
     e = KeyError "signal_id" /\
     Exists (fun r => r !! "signal_id" = None) (S ++ P)%list) /\
  (Forall (fun r => is_Some (r !! "signal_id")) (S ++ P)%list ->
   exists markers, identify_deletes S P = Ok markers).
Proof.
  unfold identify_deletes. split.
  - intros e H.
    pose proof (mapM_outcome (fun s : record => getitem s "signal_id") S) as HS.
    destruct (mapM (fun s : record => getitem s "signal_id") S) as [ks|e1]; simpl in H.
    + pose proof (mapM_outcome (fun s : record => getitem s "signal_id") P) as HP.
      destruct (mapM (fun s : record => getitem s "signal_id") P) as [ps|e2];
        simpl in H; [discriminate|]. injection H as <-.
      apply Exists_exists in HP as (r & Hin & Hr). apply getitem_Raise in Hr as [Hr ->].
      split; [reflexivity|]. apply Exists_app. right. apply Exists_exists. eauto.
    + injection H as <-.
      apply Exists_exists in HS as (r & Hin & Hr). apply getitem_Raise in Hr as [Hr ->].
      split; [reflexivity|]. apply Exists_app. left. apply Exists_exists. eauto.
  - intros Hall. apply Forall_app in Hall as [HS HP].
    destruct (mapM_total (fun s : record => getitem s "signal_id") S) as [ks ->].
    { eapply Forall_impl; [exact HS|]. intros r [v Hv]. exists v. apply getitem_Ok, Hv. }
    destruct (mapM_total (fun s : record => getitem s "signal_id") P) as [ps ->].
    { eapply Forall_impl; [exact HP|]. intros r [v Hv]. exists v. apply getitem_Ok, Hv. }
    simpl. eauto.
Qed.

End PassFailures.

(** ** Further properties: the reconciler on arbitrary identifiers *)

Section Markers.

Context (lib : library).

Implicit Types (S P : list record) (r : record).

Lemma identify_deletes_Ok S P markers :
  identify_deletes S P = Ok markers ->
  exists ks ps,
    Forall2 (fun r v => r !! "signal_id" = Some v) S ks /\
    Forall2 (fun r v => r !! "signal_id" = Some v) P ps /\
    markers = map deletion_marker
                (List.filter (fun v => negb (py_in v ks)) ps).
Proof.
  unfold identify_deletes. intros H.
  destruct (mapM (fun s : record => getitem s "signal_id") S) as [ks|e] eqn:HS;
    [|discriminate H]. simpl in H.
  destruct (mapM (fun s : record => getitem s "signal_id") P) as [ps|e] eqn:HP;
    [|discriminate H]. simpl in H. injection H as <-.
  exists ks, ps. split; [|split; [|reflexivity]].
  - apply mapM_Ok_Forall2 in HS. eapply Forall2_impl; [exact HS|].
    intros r v Hv. apply getitem_Ok, Hv.
  - apply mapM_Ok_Forall2 in HP. eapply Forall2_impl; [exact HP|].
    intros r v Hv. apply getitem_Ok, Hv.
Qed.



(** X3: when the source identifiers are strings, as they are after
    stringification, and the published identifiers are values of any type,
    every marker [identify_deletes] returns has exactly the two keys
    ["signal_id"] and [":deleted"], the latter being [True]; its identifier
    is the identifier of a published record and is the string of no source
    record; and there are at most as many markers as published records. *)
Theorem identify_deletes_markers_come_from_published S P sids markers :
  has_ids S sids ->
  identify_deletes S P = Ok markers ->
  length markers <= length P /\
  forall m, m ∈ markers ->
    dom m = ({["signal_id"; ":deleted"]} : gset string) /\
    m !! ":deleted" = Some (VBool true) /\
    exists p v,
      p ∈ P /\ p !! "signal_id" = Some v /\ m !! "signal_id" = Some v /\
      forall id, id ∈ sids -> v <> VStr id.
Proof.
  intros Hids H. apply identify_deletes_Ok in H as (ks & ps & HS & HP & ->). split.
  - rewrite length_map, (Forall2_length _ _ _ HP). apply List.filter_length_le.
  - intros m Hm. apply list_elem_of_fmap in Hm as (v & -> & Hv).
    apply list_elem_of_In, List.filter_In in Hv as [Hv Hnot].
    apply list_elem_of_In, list_elem_of_lookup_1 in Hv as [i Hi].
    destruct (Forall2_lookup_r _ _ _ _ _ HP Hi) as (p & Hp & Hpv).
    split; [|split].
    + unfold deletion_marker. rewrite !dom_insert_L, dom_empty_L. set_solver.
    + unfold deletion_marker. rewrite lookup_insert_ne by discriminate.
      apply lookup_insert_eq.
    + exists p, v. split; [eapply list_elem_of_lookup_2, Hp|].
      split; [exact Hpv|]. split; [apply lookup_insert_eq|].
      intros id Hid ->. apply negb_true_iff in Hnot.
      apply list_elem_of_lookup_1 in Hid as [j Hj].
      destruct (Forall2_lookup_r _ _ _ _ _ Hids Hj) as (s & Hs & Hsid).
      destruct (Forall2_lookup_l _ _ _ _ _ HS Hs) as (w & Hw & Hsw).
      assert (w = VStr id) as -> by congruence.
      unfold py_in in Hnot.
      assert (existsb (py_eq (VStr id)) ks = true); [|congruence].
      apply existsb_exists. exists (VStr id). split.
      * apply list_elem_of_In. eapply list_elem_of_lookup_2, Hw.
      * apply py_eq_str. reflexivity.
Qed.





End Markers.

(** ** Further properties: the asset merge and the time stamp *)

Section MergeAgain.

Context (lib : library).

Implicit Types (r : record) (k : string) (recs assets : list record).

Lemma filterM_ext {X : Type} (f g : X -> result bool) (l : list X) :
  (forall x, f x = g x) -> filterM f l = filterM g l.
Proof.
  intros Hfg. induction l as [|x l IH]; [reflexivity|]. simpl.
  rewrite Hfg, IH. reflexivity.
Qed.

Lemma filterM_Raise {X : Type} (f : X -> result bool) (l : list X) (e : exn) :
  filterM f l = Raise e -> Exists (fun x => f x = Raise e) l.
Proof.
  induction l as [|x l IH]; [discriminate|]. simpl. unfold mbind, result_bind.
  destruct (f x) as [b|e'] eqn:Hx.
  - destruct (filterM f l) as [ys|e'] eqn:Hl; [discriminate|].
    intros [= <-]. right. apply IH. reflexivity.
  - intros [= <-]. left. exact Hx.
Qed.

Lemma merge_one_Raise assets r e :
  merge_one assets r = Raise e ->
  e = KeyError "signal_id" /\ assets <> [] /\
  (r !! "signal_id" = None \/ Exists (fun a => a !! "signal_id" = None) assets).
Proof.
  unfold merge_one. intros H.
  destruct (matching_assets assets r) as [l|e'] eqn:Hm.
  - destruct l; discriminate H.
  - simpl in H. injection H as <-. unfold matching_assets in Hm.
    apply filterM_Raise, Exists_exists in Hm as (a & Hin & Ha).
    assert (Hne : assets <> []).
    { intros ->. apply elem_of_nil in Hin. contradiction. }
    unfold getitem in Ha. destruct (a !! "signal_id") as [x|] eqn:Hx; simpl in Ha.
    + destruct (r !! "signal_id") as [y|] eqn:Hy; simpl in Ha; [discriminate|].
      injection Ha as <-. auto.
    + injection Ha as <-. split; [reflexivity|]. split; [exact Hne|]. right.
      apply Exists_exists. eauto.
Qed.

(** X7: with no asset record at all the merge leaves every source
    record as it is, also a record without identifier; and when the merge
    raises, the exception is KeyError for ["signal_id"], there is some
    asset record, and a source record or an asset record lacks the key. *)
Theorem merge_without_assets_and_its_only_error recs assets :
  merge_signal_asset_data recs [] = Ok recs /\
  (forall e, merge_signal_asset_data recs assets = Raise e ->
     e = KeyError "signal_id" /\ assets <> [] /\
     Exists (fun r => r !! "signal_id" = None) (recs ++ assets)%list).
Proof.
  unfold merge_signal_asset_data. split.
  - apply mapM_Ok_Forall2. induction recs; constructor; auto.
  - intros e H. apply mapM_Raise, Exists_exists in H as (r & Hin & Hr).
    apply merge_one_Raise in Hr as (-> & Hne & Hmiss).
    split; [reflexivity|]. split; [exact Hne|]. apply Exists_app.
    destruct Hmiss as [Hr|Ha]; [left | right; exact Ha].
    apply Exists_exists. eauto.
Qed.

Lemma update_from_twice keys (src r : record) :
  update_from keys src (update_from keys src r) = update_from keys src r.
Proof.
  apply map_eq. intros k. destruct (decide (k ∈ keys)) as [Hk|Hk].
  - rewrite !update_from_lookup_in by exact Hk. reflexivity.
  - rewrite !update_from_lookup_notin by exact Hk. reflexivity.
Qed.

Lemma merge_one_twice assets r r' :
  merge_one assets r = Ok r' -> merge_one assets r' = Ok r'.
Proof.
  intros H.
  assert (Hid : r' !! "signal_id" = r !! "signal_id").
  { apply (merge_one_frame assets r r' "signal_id" H).
    unfold asset_fields. intros Hin.
    repeat (apply elem_of_cons in Hin as [Hin|Hin]; [discriminate Hin|]).
    apply elem_of_nil in Hin. exact Hin. }
  unfold merge_one in *.
  assert (Hsame : matching_assets assets r' = matching_assets assets r).
  { unfold matching_assets. apply filterM_ext. intros a.
    unfold getitem. rewrite Hid. reflexivity. }
  rewrite Hsame. destruct (matching_assets assets r) as [l|e]; [|discriminate H].
  simpl in *. destruct l as [|m l]; injection H as <-; [reflexivity|].
  f_equal. exact (update_from_twice asset_fields m r).
Qed.

(** X8: the asset merge is idempotent: merging the same asset list into
    its own result succeeds and changes nothing. *)
Theorem merge_signal_asset_data_idempotent recs assets recs' :
  merge_signal_asset_data recs assets = Ok recs' ->
  merge_signal_asset_data recs' assets = Ok recs'.
Proof.
  unfold merge_signal_asset_data. apply mapM_fixed. intros x y. apply merge_one_twice.
Qed.

(** X9: [set_processed_datetime] never raises and reads the clock once
    per record, in order: the record at position [i] is stamped with the
    reading number [tick + i], formatted to the second, whatever it held
    under ["processed_datetime"] before; the other records' readings do not
    reach it, and the count of readings grows by the number of records. *)
Theorem set_processed_datetime_reads_clock_per_record
  (clock : nat -> datetime) (tz : string) (tick : nat) recs :
  snd (set_processed_datetime clock tz tick recs) = tick + length recs /\
  length (fst (set_processed_datetime clock tz tick recs)) = length recs /\
  forall i r, recs !! i = Some r ->
    fst (set_processed_datetime clock tz tick recs) !! i =
      Some (<["processed_datetime" :=
                VStr (arrow_format (Arrow (clock (tick + i)) tz))]> r) /\
    (valid_datetime (clock (tick + i)) ->
     arrow_format (Arrow (clock (tick + i)) tz) = spec_iso_seconds (clock (tick + i))).
Proof.
  split; [|split].
  - revert tick. induction recs as [|r recs IH]; intros tick; simpl; [lia|].
    specialize (IH (S tick)).
    destruct (set_processed_datetime clock tz (S tick) recs) as [rest tick'].
    simpl in *. lia.
  - apply set_processed_datetime_length.
  - intros i r Hi. split.
    + apply set_processed_datetime_lookup, Hi.
    + apply arrow_format_iso.
Qed.

End MergeAgain.

(** ** Further properties: when coercion and formatting complete *)

Section Completion.

Context (lib : library).

Implicit Types (r : record) (k : string) (recs : list record).

Lemma convert_key_Raise r key e :
  convert_key lib r key = Raise e ->
  (r !! key = None /\ e = KeyError key) \/
  (exists v, r !! key = Some v /\ py_int lib v = Raise e).
Proof.
  unfold convert_key, getitem. destruct (r !! key) as [v|]; simpl.
  - destruct (py_int lib v) as [z|e'] eqn:Hz; simpl; [discriminate|].
    intros [= <-]. right. eauto.
  - intros [= <-]. left. auto.
Qed.

Lemma convert_two_keys_Ok r r' :
  foldM (convert_key lib) ["operation_state"; "plan_id"] r = Ok r' ->
  exists a b x y,
    r !! "operation_state" = Some a /\ r !! "plan_id" = Some b /\
    py_int lib a = Ok x /\ py_int lib b = Ok y /\
    r' = <["plan_id" := VInt y]> (<["operation_state" := VInt x]> r).
Proof.
  simpl. intros H. bind_ok H. bind_ok H. injection H as <-.
  apply convert_key_Ok in E as (va & x & Ha & Hx & ->).
  apply convert_key_Ok in E0 as (vb & y & Hb & Hy & ->).
  rewrite lookup_insert_ne in Hb by discriminate.
  exists va, vb, x, y. auto.
Qed.

Lemma convert_two_keys_Raise r e :
  foldM (convert_key lib) ["operation_state"; "plan_id"] r = Raise e ->
  exists k, k ∈ ["operation_state"; "plan_id"] /\
    ((r !! k = None /\ e = KeyError k) \/
     (exists v, r !! k = Some v /\ py_int lib v = Raise e)).
Proof.
  simpl. unfold mbind at 1, result_bind at 1.
  destruct (convert_key lib r "operation_state") as [r1|e1] eqn:H1.
  - unfold mbind at 1, result_bind at 1.
    destruct (convert_key lib r1 "plan_id") as [r2|e2] eqn:H2; [discriminate|].
    intros [= <-]. apply convert_key_Ok in H1 as (a & x & _ & _ & ->).
    exists "plan_id". split; [right; left|].
    apply convert_key_Raise in H2.
    rewrite lookup_insert_ne in H2 by discriminate. exact H2.
  - intros [= <-]. exists "operation_state". split; [left|].
    apply convert_key_Raise, H1.
Qed.

(** X10: [convert_decimals] completes exactly when every record has
    both fields and [int] accepts both values; when it raises, some record
    lacks one of the two fields, the exception being KeyError for it, or
    holds a value on which [int] raises that exception; [int(None)] raises
    TypeError. *)
Theorem convert_decimals_completes_iff_int_accepts recs :
  ((exists recs', convert_decimals lib recs ["operation_state"; "plan_id"] = Ok recs') <->
   Forall (fun r => exists a b x y,
             r !! "operation_state" = Some a /\ r !! "plan_id" = Some b /\
             py_int lib a = Ok x /\ py_int lib b = Ok y) recs) /\
  (forall e, convert_decimals lib recs ["operation_state"; "plan_id"] = Raise e ->
     exists r k, r ∈ recs /\ k ∈ ["operation_state"; "plan_id"] /\
       ((r !! k = None /\ e = KeyError k) \/
        (exists v, r !! k = Some v /\ py_int lib v = Raise e))) /\
  py_int lib VNone = Raise TypeError.
Proof.
  unfold convert_decimals. split; [split|split; [|reflexivity]].
  - intros [recs' H]. apply mapM_Ok_Forall2 in H. apply Forall_forall. intros r Hr.
    apply list_elem_of_lookup_1 in Hr as [i Hi].
    destruct (Forall2_lookup_l _ _ _ _ _ H Hi) as (r' & _ & Hone).
    apply convert_two_keys_Ok in Hone as (a & b & x & y & Ha & Hb & Hx & Hy & _).
    exists a, b, x, y. auto.
  - intros Hall. apply mapM_total. eapply Forall_impl; [exact Hall|].
    intros r (a & b & x & y & Ha & Hb & Hx & Hy).
    exists (<["plan_id" := VInt y]> (<["operation_state" := VInt x]> r)).
    simpl. unfold convert_key at 2, getitem. rewrite Ha. simpl. rewrite Hx. simpl.
    unfold convert_key, getitem. rewrite lookup_insert_ne by discriminate.
    rewrite Hb. simpl. rewrite Hy. reflexivity.
  - intros e H. apply mapM_Raise, Exists_exists in H as (r & Hin & Hr).
    apply convert_two_keys_Raise in Hr as (k & Hk & Hwhy). exists r, k. auto.
Qed.

Lemma format_one_Raise r e :
  format_one lib r = Raise e ->
  e = AttributeError /\
  exists v, r !! "location" = Some v /\ forall d : record, v <> VDict d.
Proof.
  unfold format_one, dict_get. destruct (r !! "location") as [v|] eqn:Hv.
  - destruct v; simpl; intros H;
      try (injection H as <-; split; [reflexivity|];
           eexists; split; [reflexivity|]; intros m Hm; discriminate Hm).
    destruct (py_bool _ && py_bool _); discriminate H.
  - simpl. discriminate.
Qed.

(** X11: [format_locations] completes exactly when the location of
    every record is absent or a mapping; otherwise it raises
    AttributeError, and it raises nothing else. *)
Theorem format_locations_completes_iff_locations_are_mappings recs :
  ((exists recs', format_locations lib recs = Ok recs') <->
   Forall (fun r => r !! "location" = None \/
                    exists d : record, r !! "location" = Some (VDict d)) recs) /\
  (forall e, format_locations lib recs = Raise e -> e = AttributeError).
Proof.
  unfold format_locations. split; [split|].
  - intros [recs' H]. apply mapM_Ok_Forall2 in H. apply Forall_forall. intros r Hr.
    apply list_elem_of_lookup_1 in Hr as [i Hi].
    destruct (Forall2_lookup_l _ _ _ _ _ H Hi) as (r' & _ & Hone).
    destruct (r !! "location") as [v|] eqn:Hv; [right | left; reflexivity].
    unfold format_one, dict_get in Hone. rewrite Hv in Hone.
    destruct v; try discriminate Hone. eauto.
  - intros Hall. apply mapM_total. eapply Forall_impl; [exact Hall|].
    intros r [Hr|[d Hr]].
    + rewrite (format_one_absent lib r Hr). eauto.
    + rewrite (format_one_dict lib r d Hr). eauto.
  - intros e H. apply mapM_Raise, Exists_exists in H as (r & _ & Hr).
    apply format_one_Raise in Hr as [-> _]. reflexivity.
Qed.

End Completion.

(** ** Further properties: the run as a whole *)

Section WholeRun.

Context (lib : library) (cfg : config) (E : env).

Implicit Types (r : record) (v : run_values).

Lemma mapM_Ok_lookup_l {X Y : Type} (f : X -> result Y) (l : list X) (k : list Y)
  (i : nat) (x : X) :
  mapM f l = Ok k -> l !! i = Some x -> exists y, k !! i = Some y /\ f x = Ok y.
Proof.
  intros H Hx. apply mapM_Ok_Forall2 in H.
  exact (Forall2_lookup_l _ _ _ _ _ H Hx).
Qed.

(** One record followed through the passes of a run, from the row to
    the record handed to location formatting. *)
Lemma record_through_passes (rows s assets m l c : list record) (i : nat) r0 :
  stringify_signal_ids lib rows "signal_id" = Ok s ->
  merge_signal_asset_data s assets = Ok m ->
  localize_operation_state_datetime lib m "operation_state_datetime" "US/Central" = Ok l ->
  convert_decimals lib (fst (set_processed_datetime (clock E) "US/Central" 0 l))
    ["operation_state"; "plan_id"] = Ok c ->
  rows !! i = Some r0 ->
  exists r1 r2 r3 r5,
    s !! i = Some r1 /\ m !! i = Some r2 /\ l !! i = Some r3 /\ c !! i = Some r5 /\
    stringify_one lib "signal_id" r0 = Ok r1 /\
    merge_one assets r1 = Ok r2 /\
    localize_one lib "operation_state_datetime" "US/Central" r2 = Ok r3 /\
    foldM (convert_key lib) ["operation_state"; "plan_id"]
      (<["processed_datetime" := VStr (arrow_format (Arrow (clock E i) "US/Central"))]> r3)
      = Ok r5.
Proof.
  intros Hs Hm Hl Hc H0.
  destruct (mapM_Ok_lookup_l _ _ _ _ _ Hs H0) as (r1 & H1 & Hr1).
  destruct (mapM_Ok_lookup_l _ _ _ _ _ Hm H1) as (r2 & H2 & Hr2).
  destruct (mapM_Ok_lookup_l _ _ _ _ _ Hl H2) as (r3 & H3 & Hr3).
  pose proof (set_processed_datetime_lookup (clock E) "US/Central" 0 l i r3 H3) as H4.
  destruct (mapM_Ok_lookup_l _ _ _ _ _ Hc H4) as (r5 & H5 & Hr5).
  exists r1, r2, r3, r5. auto 10.
Qed.

Lemma not_asset_field (k : string) :
  k <> "location" -> k <> "location_name" -> k <> "primary_st" -> k <> "cross_st" ->
  k ∉ asset_fields.
Proof.
  intros H1 H2 H3 H4 Hin. unfold asset_fields in Hin.
  repeat (apply elem_of_cons in Hin as [Hin|Hin]; [congruence|]).
  apply elem_of_nil in Hin. exact Hin.
Qed.

(** What the passes up to coercion leave in one record. *)
Lemma record_after_coercion assets r0 r1 r2 r3 r5 (stamp : string) :
  stringify_one lib "signal_id" r0 = Ok r1 ->
  merge_one assets r1 = Ok r2 ->
  localize_one lib "operation_state_datetime" "US/Central" r2 = Ok r3 ->
  foldM (convert_key lib) ["operation_state"; "plan_id"]
    (<["processed_datetime" := VStr stamp]> r3) = Ok r5 ->
  (exists id, r1 !! "signal_id" = Some (VStr id) /\ r5 !! "signal_id" = Some (VStr id)) /\
  (exists dt, r5 !! "operation_state_datetime" = Some (VStr dt)) /\
  r5 !! "processed_datetime" = Some (VStr stamp) /\
  (exists x, r5 !! "operation_state" = Some (VInt x)) /\
  (exists y, r5 !! "plan_id" = Some (VInt y)) /\
  r5 !! "location" = r2 !! "location".
Proof.
  intros H1 H2 H3 H5.
  apply stringify_one_Ok in H1 as (v0 & _ & ->).
  apply localize_one_Ok in H3 as (v2 & dt & _ & _ & ->).
  apply convert_two_keys_Ok in H5 as (a & b & x & y & _ & _ & _ & _ & ->).
  assert (Hid : r2 !! "signal_id" = Some (VStr (py_str lib v0))).
  { rewrite (merge_one_frame _ _ _ "signal_id" H2).
    - apply lookup_insert_eq.
    - apply not_asset_field; discriminate. }
  repeat split.
  - exists (py_str lib v0). split; [apply lookup_insert_eq|].
    rewrite !lookup_insert_ne by discriminate. exact Hid.
  - eexists. rewrite !lookup_insert_ne by discriminate. apply lookup_insert_eq.
  - rewrite !lookup_insert_ne by discriminate. apply lookup_insert_eq.
  - eexists. rewrite lookup_insert_ne by discriminate. apply lookup_insert_eq.
  - eexists. apply lookup_insert_eq.
  - rewrite !lookup_insert_ne by discriminate. reflexivity.
Qed.

Lemma ops_ok_equations v :
  Forall (op_ok lib cfg E v) ops ->
  stringify_signal_ids lib (rv_rows v) "signal_id" = Ok (rv_stringified v) /\
  identify_deletes (rv_stringified v) (rv_published v) = Ok (rv_deletes v) /\
  merge_signal_asset_data (rv_stringified v) (rv_assets v) = Ok (rv_merged v) /\
  localize_operation_state_datetime lib (rv_merged v)
    "operation_state_datetime" "US/Central" = Ok (rv_localized v) /\
  convert_decimals lib
    (fst (set_processed_datetime (clock E) "US/Central" 0 (rv_localized v)))
    ["operation_state"; "plan_id"] = Ok (rv_converted v) /\
  format_locations lib (rv_converted v) = Ok (rv_formatted v).
Proof.
  intros Hall.
  assert (H2 := ops_all_ok lib cfg E v OpStringify Hall ltac:(set_solver)).
  assert (H4 := ops_all_ok lib cfg E v OpIdentifyDeletes Hall ltac:(set_solver)).
  assert (H8 := ops_all_ok lib cfg E v OpMerge Hall ltac:(set_solver)).
  assert (H9 := ops_all_ok lib cfg E v OpLocalize Hall ltac:(set_solver)).
  assert (H10 := ops_all_ok lib cfg E v OpConvert Hall ltac:(set_solver)).
  assert (H11 := ops_all_ok lib cfg E v OpFormat Hall ltac:(set_solver)).
  unfold op_ok in *. cbn [op_run projT2 fst snd] in *. auto 10.
Qed.

(** X12: in a run whose operations before the write all succeed, every
    upsert record of the payload holds a string under ["signal_id"],
    ["operation_state_datetime"] and ["processed_datetime"] and an integer
    under ["operation_state"] and ["plan_id"]; its identifier is the one
    its row got from stringification. *)
Theorem payload_records_have_the_published_fields v (i : nat) r :
  Forall (op_ok lib cfg E v) ops ->
  rv_formatted v !! i = Some r ->
  (exists r1 id, rv_stringified v !! i = Some r1 /\
                 r1 !! "signal_id" = Some (VStr id) /\
                 r !! "signal_id" = Some (VStr id)) /\
  (exists dt, r !! "operation_state_datetime" = Some (VStr dt)) /\
  (exists pd, r !! "processed_datetime" = Some (VStr pd)) /\
  (exists x, r !! "operation_state" = Some (VInt x)) /\
  (exists y, r !! "plan_id" = Some (VInt y)).
Proof.
  intros Hall Hr.
  destruct (ops_ok_equations v Hall) as (Hs & _ & Hm & Hl & Hc & Hf).
  assert (Hlen : length (rv_formatted v) = length (rv_rows v)).
  { rewrite (mapM_Ok_length _ _ _ Hf), (mapM_Ok_length _ _ _ Hc).
    rewrite set_processed_datetime_length.
    rewrite (mapM_Ok_length _ _ _ Hl), (mapM_Ok_length _ _ _ Hm).
    exact (mapM_Ok_length _ _ _ Hs). }
  destruct (lookup_lt_is_Some_2 (rv_rows v) i) as [r0 H0].
  { rewrite <- Hlen. eapply lookup_lt_Some, Hr. }
  destruct (record_through_passes _ _ _ _ _ _ i r0 Hs Hm Hl Hc H0)
    as (r1 & r2 & r3 & r5 & H1 & _ & _ & H5 & P1 & P2 & P3 & P5).
  destruct (record_after_coercion _ _ _ _ _ _ _ P1 P2 P3 P5)
    as ((id & Hid1 & Hid) & (dt & Hdt) & Hpd & (x & Hx) & (y & Hy) & _).
  pose proof (mapM_Ok_lookup _ _ _ _ _ _ Hf H5 Hr) as Hone.
  pose proof (format_one_frame lib r5 r) as Hframe.
  split; [|split; [|split; [|split]]].
  - exists r1, id. split; [exact H1|]. split; [exact Hid1|].
    rewrite (Hframe "signal_id" Hone) by discriminate. exact Hid.
  - exists dt. rewrite (Hframe _ Hone) by discriminate. exact Hdt.
  - eexists. rewrite (Hframe _ Hone) by discriminate. exact Hpd.
  - exists x. rewrite (Hframe _ Hone) by discriminate. exact Hx.
  - exists y. rewrite (Hframe _ Hone) by discriminate. exact Hy.
Qed.

Lemma payload_ids v (i : nat) r :
  Forall (op_ok lib cfg E v) ops ->
  rv_formatted v !! i = Some r ->
  exists r1 id, rv_stringified v !! i = Some r1 /\
                r1 !! "signal_id" = Some (VStr id) /\
                r !! "signal_id" = Some (VStr id).
Proof.
  intros Hall Hr.
  destruct (ops_ok_equations v Hall) as (Hs & _ & Hm & Hl & Hc & Hf).
  assert (Hlen : length (rv_formatted v) = length (rv_rows v)).
  { rewrite (mapM_Ok_length _ _ _ Hf), (mapM_Ok_length _ _ _ Hc).
    rewrite set_processed_datetime_length.
    rewrite (mapM_Ok_length _ _ _ Hl), (mapM_Ok_length _ _ _ Hm).
    exact (mapM_Ok_length _ _ _ Hs). }
  destruct (lookup_lt_is_Some_2 (rv_rows v) i) as [r0 H0].
  { rewrite <- Hlen. eapply lookup_lt_Some, Hr. }
  destruct (record_through_passes _ _ _ _ _ _ i r0 Hs Hm Hl Hc H0)
    as (r1 & r2 & r3 & r5 & H1 & _ & _ & H5 & P1 & P2 & P3 & P5).
  destruct (record_after_coercion _ _ _ _ _ _ _ P1 P2 P3 P5)
    as ((id & Hid1 & Hid) & _).
  pose proof (mapM_Ok_lookup _ _ _ _ _ _ Hf H5 Hr) as Hone.
  exists r1, id. split; [exact H1|]. split; [exact Hid1|].
  rewrite (format_one_frame lib r5 r "signal_id" Hone) by discriminate. exact Hid.
Qed.

(** X13: in such a run no record is both upserted and deleted: the
    identifier of a deletion marker of the payload is unequal (in Python's
    sense) to the identifier of every upsert record of the payload, whatever
    the types of the published identifiers. *)
Theorem payload_upserts_and_deletes_are_disjoint v (u m : record) (a b : value) :
  Forall (op_ok lib cfg E v) ops ->
  u ∈ rv_formatted v -> m ∈ rv_deletes v ->
  u !! "signal_id" = Some a -> m !! "signal_id" = Some b ->
  py_eq b a = false.
Proof.
  intros Hall Hu Hm Ha Hb.
  apply list_elem_of_lookup_1 in Hu as [i Hi].
  destruct (payload_ids v i u Hall Hi) as (r1 & id & H1 & Hid1 & Hid).
  destruct (ops_ok_equations v Hall) as (_ & Hd & _).
  apply identify_deletes_Ok in Hd as (ks & ps & HS & _ & Hms).
  rewrite Hms in Hm. apply list_elem_of_fmap in Hm as (w & -> & Hw).
  apply list_elem_of_In, List.filter_In in Hw as [_ Hnot].
  unfold deletion_marker in Hb. rewrite lookup_insert_eq in Hb. injection Hb as ->.
  rewrite Hid in Ha. injection Ha as <-.
  destruct (Forall2_lookup_l _ _ _ _ _ HS H1) as (k & Hk & Hr1k).
  rewrite Hid1 in Hr1k. injection Hr1k as <-.
  apply negb_true_iff in Hnot. unfold py_in in Hnot.
  destruct (py_eq b (VStr id)) eqn:Heq; [|reflexivity].
  assert (existsb (py_eq b) ks = true); [|congruence].
  apply existsb_exists. exists (VStr id). split; [|exact Heq].
  apply list_elem_of_In. eapply list_elem_of_lookup_2, Hk.
Qed.

Lemma str_join_strings (sep : string) (l : list string) :
  str_join sep (VStr <$> l) = Ok (String.concat sep l).
Proof.
  induction l as [|x l IH]; [reflexivity|].
  destruct l as [|y l]; [reflexivity|].
  rewrite !fmap_cons. rewrite fmap_cons in IH.
  change (str_join sep (VStr x :: VStr y :: (VStr <$> l)))
    with (t ← str_join sep (VStr y :: (VStr <$> l)); Ok (x +:+ sep +:+ t)).
  rewrite IH. reflexivity.
Qed.

(** X14: once stringification has succeeded, listing the identifiers
    and joining them cannot raise, and the filter of the asset read names
    [str] of the identifier of every source row, in order, separated by
    commas and not quoted; with no row the list between the brackets is
    empty. *)
Theorem asset_filter_lists_the_source_ids (rows s : list record) :
  stringify_signal_ids lib rows "signal_id" = Ok s ->
  exists vs,
    Forall2 (fun (r : record) x => r !! "signal_id" = Some x) rows vs /\
    mapM (fun signal : record => getitem signal "signal_id") s =
      Ok (VStr <$> (py_str lib <$> vs)) /\
    str_join "," (VStr <$> (py_str lib <$> vs)) =
      Ok (String.concat "," (py_str lib <$> vs)) /\
    (rows = [] -> String.concat "," (py_str lib <$> vs) = "").
Proof.
  intros Hs. apply mapM_Ok_Forall2 in Hs.
  assert (Hvs : exists vs,
            Forall2 (fun (r : record) x => r !! "signal_id" = Some x) rows vs /\
            has_ids s (py_str lib <$> vs)).
  { induction Hs as [|r r' rows s Hone _ (vs & Hrows & Hids)].
    - exists []. split; constructor.
    - apply stringify_one_Ok in Hone as (x & Hx & ->).
      exists (x :: vs). split; constructor; auto. apply lookup_insert_eq. }
  destruct Hvs as (vs & Hrows & Hids). exists vs.
  split; [exact Hrows|]. split; [exact (getitem_ids _ _ Hids)|].
  split; [apply str_join_strings|].
  intros ->. inversion Hrows. reflexivity.
Qed.

(** Unfolds [main] down to the calls of the world and of the passes. *)
Ltac open_main :=
  unfold main, get_kits_signal_status, get_socrata_data, logger_info, stamp,
    emit, lift;
  unfold mbind, io_bind; cbn [trace ticks].

Lemma main_raises_at_format v (e : exn) :
  Forall (op_ok lib cfg E v) (take 10 ops) ->
  format_locations lib (rv_converted v) = Raise e ->
  exists w, main lib cfg E (World [] 0) = (Raise e, w) /\ upserts (trace w) = [].
Proof.
  intros Hpre Hraise.
  assert (H0 := ops_prefix_ok lib cfg E v 10 _ 0 Hpre ltac:(lia) eq_refl).
  assert (H1 := ops_prefix_ok lib cfg E v 10 _ 1 Hpre ltac:(lia) eq_refl).
  assert (H2 := ops_prefix_ok lib cfg E v 10 _ 2 Hpre ltac:(lia) eq_refl).
  assert (H3 := ops_prefix_ok lib cfg E v 10 _ 3 Hpre ltac:(lia) eq_refl).
  assert (H4 := ops_prefix_ok lib cfg E v 10 _ 4 Hpre ltac:(lia) eq_refl).
  assert (H5 := ops_prefix_ok lib cfg E v 10 _ 5 Hpre ltac:(lia) eq_refl).
  assert (H6 := ops_prefix_ok lib cfg E v 10 _ 6 Hpre ltac:(lia) eq_refl).
  assert (H7 := ops_prefix_ok lib cfg E v 10 _ 7 Hpre ltac:(lia) eq_refl).
  assert (H8 := ops_prefix_ok lib cfg E v 10 _ 8 Hpre ltac:(lia) eq_refl).
  assert (H9 := ops_prefix_ok lib cfg E v 10 _ 9 Hpre ltac:(lia) eq_refl).
  clear Hpre. unfold op_ok in *. cbn [op_run projT2 fst snd] in *.
  destruct (set_processed_datetime (clock E) "US/Central" 0 (rv_localized v))
    as [stamped tick] eqn:Hst.
  cbn [fst] in H9.
  open_main. rewrite H0. cbn [trace ticks]. rewrite H1. rewrite H2. cbn [trace ticks].
  rewrite H3. cbn [trace ticks]. rewrite H4. rewrite H5. rewrite H6. cbn [trace ticks].
  rewrite H7. rewrite H8. rewrite Hst. rewrite H9. rewrite Hraise.
  eexists. split; reflexivity.
Qed.

(** X15: the asset merge and location formatting do not go together
    when an asset has no location: if the first asset matching some source
    record lacks the ["location"] field, the merge writes [None] under it,
    location formatting raises AttributeError on the coerced records, and
    the run ends with that exception without any write. *)
Theorem run_aborts_when_matched_asset_lacks_location
  v (i : nat) (r1 : record) (pre : list record) (m : record) (post : list record) :
  Forall (op_ok lib cfg E v) (take 10 ops) ->
  rv_stringified v !! i = Some r1 ->
  rv_assets v = (pre ++ m :: post)%list ->
  (forall a, a ∈ pre -> same_signal a r1 = false) ->
  same_signal m r1 = true ->
  m !! "location" = None ->
  (exists r2, rv_merged v !! i = Some r2 /\ r2 !! "location" = Some VNone) /\
  format_locations lib (rv_converted v) = Raise AttributeError /\
  exists w,
    main lib cfg E (World [] 0) = (Raise AttributeError, w) /\ upserts (trace w) = [].
Proof.
  intros Hpre H1 Hassets Hbefore Hmatch Hmiss.
  assert (Hs := ops_prefix_ok lib cfg E v 10 _ 1 Hpre ltac:(lia) eq_refl).
  assert (Hm := ops_prefix_ok lib cfg E v 10 _ 7 Hpre ltac:(lia) eq_refl).
  assert (Hl := ops_prefix_ok lib cfg E v 10 _ 8 Hpre ltac:(lia) eq_refl).
  assert (Hc := ops_prefix_ok lib cfg E v 10 _ 9 Hpre ltac:(lia) eq_refl).
  unfold op_ok in Hs, Hm, Hl, Hc. cbn [op_run projT2 fst snd] in Hs, Hm, Hl, Hc.
  destruct (lookup_lt_is_Some_2 (rv_rows v) i) as [r0 H0].
  { rewrite <- (mapM_Ok_length _ _ _ Hs). eapply lookup_lt_Some, H1. }
  destruct (record_through_passes _ _ _ _ _ _ i r0 Hs Hm Hl Hc H0)
    as (r1' & r2 & r3 & r5 & H1' & H2 & _ & H5 & P1 & P2 & P3 & P5).
  assert (r1' = r1) as -> by congruence.
  assert (Hnone : r2 !! "location" = Some VNone).
  { pose proof (merge_one_Ok _ _ _ P2) as Hr2.
    rewrite Hassets, (filter_first_match _ _ _ _ Hbefore Hmatch) in Hr2. subst r2.
    rewrite update_from_lookup_in by (unfold asset_fields; left).
    unfold dict_get. rewrite Hmiss. reflexivity. }
  destruct (record_after_coercion _ _ _ _ _ _ _ P1 P2 P3 P5) as (_ & _ & _ & _ & _ & Hloc).
  assert (Hfmt : format_locations lib (rv_converted v) = Raise AttributeError).
  { apply mapM_fails.
    - intros x e Hx. apply format_one_Raise in Hx as [-> _]. reflexivity.
    - apply Exists_exists. exists r5. split; [eapply list_elem_of_lookup_2, H5|].
      unfold format_one, dict_get. rewrite Hloc, Hnone. reflexivity. }
  split; [eauto|]. split; [exact Hfmt|].
  exact (main_raises_at_format v AttributeError Hpre Hfmt).
Qed.

(** X16: whatever the world answers, a run begins with the database
    query and either ends in an exception without having called the write,
    or calls the write exactly once, as its last action, on the status
    dataset, and ends as that call ends. *)
Theorem main_queries_first_and_writes_last_at_most_once :
  let run := main lib cfg E (World [] 0) in
  trace (snd run) !! 0 =
    Some (EvQuery (KITS_SERVER cfg) (KITS_USER cfg) (KITS_PASSWORD cfg)
            (KITS_DATABSE cfg) FLASH_STATUSES) /\
  ((upserts (trace (snd run)) = [] /\ exists e, fst run = Raise e) \/
   (exists payload,
      upserts (trace (snd run)) = [(SIGNAL_STATUS_RESOURCE_ID, payload)] /\
      last (trace (snd run)) = Some (EvUpsert SIGNAL_STATUS_RESOURCE_ID payload) /\
      fst run = socrata_upsert E SIGNAL_STATUS_RESOURCE_ID payload)).
Proof.
  cbv zeta. open_main.
  repeat match goal with
         | |- context [set_processed_datetime ?c ?z ?t ?l] =>
             destruct (set_processed_datetime c z t l); cbn [trace ticks fst snd]
         | |- context [match ?x with Ok _ => _ | Raise _ => _ end] =>
             destruct x eqn:?; cbn [trace ticks fst snd]
         end.
  all: split; [reflexivity|].
  all: first [ left; split; [reflexivity | eexists; reflexivity]
             | right; eexists; split; [reflexivity | split; reflexivity] ].
Qed.

Lemma set_processed_datetime_readings (c : nat -> datetime) (tz : string)
  (tick : nat) (recs : list record) :
  snd (set_processed_datetime c tz tick recs) = tick + length recs.
Proof.
  revert tick. induction recs as [|r recs IH]; intros tick; simpl; [lia|].
  specialize (IH (S tick)).
  destruct (set_processed_datetime c tz (S tick) recs) as [rest tick'].
  simpl in *. lia.
Qed.

(** X17: a run whose operations before the write all succeed acts on
    the world in this order and no other: the query, a log line with the
    number of rows, the read of the whole status dataset, a log line with
    the number of deletions, the read of the asset dataset filtered to the
    joined identifiers, and the write; it has read the clock once per row. *)
Theorem successful_run_trace v :
  Forall (op_ok lib cfg E v) ops ->
  main lib cfg E (World [] 0) =
    (socrata_upsert E SIGNAL_STATUS_RESOURCE_ID (rv_formatted v ++ rv_deletes v)%list,
     World
       [EvQuery (KITS_SERVER cfg) (KITS_USER cfg) (KITS_PASSWORD cfg)
          (KITS_DATABSE cfg) [1; 2; 3]%Z;
        EvLog (len_str (rv_rows v) +:+ " records to process.");
        EvGet "https://data.austintexas.gov/resource/5zpr-dehc.json"
          (Params None 99999);
        EvLog (len_str (rv_deletes v) +:+ " to be deleted.");
        EvGet "https://data.austintexas.gov/resource/p53x-x73x.json"
          (Params (Some ("signal_id in (" +:+ rv_joined v +:+ ")")) 99999);
        EvUpsert "5zpr-dehc" (rv_formatted v ++ rv_deletes v)%list]
       (length (rv_rows v))).
Proof.
  intros Hall.
  assert (H1 := ops_all_ok lib cfg E v OpQuery Hall ltac:(set_solver)).
  assert (H2 := ops_all_ok lib cfg E v OpStringify Hall ltac:(set_solver)).
  assert (H3 := ops_all_ok lib cfg E v OpReadPublished Hall ltac:(set_solver)).
  assert (H4 := ops_all_ok lib cfg E v OpIdentifyDeletes Hall ltac:(set_solver)).
  assert (H5 := ops_all_ok lib cfg E v OpListIds Hall ltac:(set_solver)).
  assert (H6 := ops_all_ok lib cfg E v OpJoinIds Hall ltac:(set_solver)).
  assert (H7 := ops_all_ok lib cfg E v OpReadAssets Hall ltac:(set_solver)).
  assert (H8 := ops_all_ok lib cfg E v OpMerge Hall ltac:(set_solver)).
  assert (H9 := ops_all_ok lib cfg E v OpLocalize Hall ltac:(set_solver)).
  assert (H10 := ops_all_ok lib cfg E v OpConvert Hall ltac:(set_solver)).
  assert (H11 := ops_all_ok lib cfg E v OpFormat Hall ltac:(set_solver)).
  clear Hall. unfold op_ok in *. cbn [op_run projT2 fst snd] in *.
  assert (Hticks : snd (set_processed_datetime (clock E) "US/Central" 0 (rv_localized v))
                   = length (rv_rows v)).
  { rewrite set_processed_datetime_readings.
    rewrite (mapM_Ok_length _ _ _ H9), (mapM_Ok_length _ _ _ H8).
    rewrite (mapM_Ok_length _ _ _ H2). reflexivity. }
  destruct (set_processed_datetime (clock E) "US/Central" 0 (rv_localized v))
    as [stamped tick] eqn:Hst.
  cbn [fst snd] in H10, Hticks. subst tick.
  open_main. rewrite H1. cbn [trace ticks]. rewrite H2. rewrite H3. cbn [trace ticks].
  rewrite H4. cbn [trace ticks]. rewrite H5. rewrite H6. rewrite H7. cbn [trace ticks].
  rewrite H8. rewrite H9. rewrite Hst. rewrite H10. rewrite H11. cbn [trace ticks].
  reflexivity.
Qed.


End WholeRun.

(** ** The further properties at work on the sample data *)

Lemma markers_sample :
  has_ids sample_stringified ["101"; "102"] /\
  identify_deletes sample_stringified sample_published_set =
    Ok [<["signal_id" := VStr "103"]> (<[":deleted" := VBool true]> ∅)] /\
  length [(<["signal_id" := VStr "103"]> (<[":deleted" := VBool true]> ∅) : record)]
    <= length sample_published_set.
Proof.
  assert (Hids : has_ids sample_stringified ["101"; "102"]) by (repeat constructor).
  assert (Hrun : identify_deletes sample_stringified sample_published_set =
                 Ok [<["signal_id" := VStr "103"]> (<[":deleted" := VBool true]> ∅)])
    by reflexivity.
  split; [exact Hids|]. split; [exact Hrun|].
  exact (proj1 (identify_deletes_markers_come_from_published _ _ _ _ Hids Hrun)).
Defined.




Lemma merge_twice_sample :
  merge_signal_asset_data sample_stringified [sample_asset "101"] =
    Ok (rv_merged sample_values) /\
  merge_signal_asset_data (rv_merged sample_values) [sample_asset "101"] =
    Ok (rv_merged sample_values).
Proof.
  assert (Hrun : merge_signal_asset_data sample_stringified [sample_asset "101"] =
                 Ok (rv_merged sample_values)) by reflexivity.
  split; [exact Hrun|]. exact (merge_signal_asset_data_idempotent _ _ _ Hrun).
Defined.

Lemma sample_upsert_first : rv_formatted sample_values !! 0 = Some sample_upsert.
Proof. reflexivity. Defined.

Lemma payload_fields_sample :
  Forall (op_ok sample_lib sample_config sample_env sample_values) ops /\
  rv_formatted sample_values !! 0 = Some sample_upsert /\
  exists x, sample_upsert !! "operation_state" = Some (VInt x).
Proof.
  split; [exact sample_run_ok|]. split; [exact sample_upsert_first|].
  exact (proj1 (proj2 (proj2 (proj2
    (payload_records_have_the_published_fields sample_lib sample_config sample_env
       sample_values 0 sample_upsert sample_run_ok sample_upsert_first))))).
Defined.

Lemma payload_disjoint_sample :
  Forall (op_ok sample_lib sample_config sample_env sample_values) ops /\
  sample_upsert ∈ rv_formatted sample_values /\
  deletion_marker (VStr "103") ∈ rv_deletes sample_values /\
  sample_upsert !! "signal_id" = Some (VStr "101") /\
  py_eq (VStr "103") (VStr "101") = false.
Proof.
  assert (Hu : sample_upsert ∈ rv_formatted sample_values)
    by (eapply list_elem_of_lookup_2, sample_upsert_first).
  assert (Hm : deletion_marker (VStr "103") ∈ rv_deletes sample_values)
    by (apply (list_elem_of_lookup_2 _ 0); reflexivity).
  assert (Ha : sample_upsert !! "signal_id" = Some (VStr "101"))
    by (vm_compute; reflexivity).
  split; [exact sample_run_ok|]. split; [exact Hu|]. split; [exact Hm|].
  split; [exact Ha|].
  exact (payload_upserts_and_deletes_are_disjoint sample_lib sample_config sample_env
           sample_values sample_upsert (deletion_marker (VStr "103"))
           (VStr "101") (VStr "103") sample_run_ok Hu Hm Ha eq_refl).
Defined.

Lemma asset_filter_sample :
  stringify_signal_ids sample_lib [sample_row 101; sample_row 102] "signal_id" =
    Ok sample_stringified /\
  exists vs,
    Forall2 (fun (r : record) x => r !! "signal_id" = Some x)
      [sample_row 101; sample_row 102] vs /\
    str_join "," (VStr <$> (py_str sample_lib <$> vs)) =
      Ok (String.concat "," (py_str sample_lib <$> vs)).
Proof.
  assert (Hs : stringify_signal_ids sample_lib [sample_row 101; sample_row 102]
                 "signal_id" = Ok sample_stringified) by reflexivity.
  split; [exact Hs|].
  destruct (asset_filter_lists_the_source_ids sample_lib _ _ Hs)
    as (vs & Hrows & _ & Hjoin & _).
  exists vs. split; [exact Hrows | exact Hjoin].
Defined.

Lemma bare_run_ok :
  Forall (op_ok sample_lib sample_config bare_env bare_values) (take 10 ops).
Proof. repeat constructor. Defined.

Lemma bare_asset_aborts_run :
  Forall (op_ok sample_lib sample_config bare_env bare_values) (take 10 ops) /\
  same_signal (bare_asset "101") (<["signal_id" := VStr "101"]> (sample_row 101)) = true /\
  bare_asset "101" !! "location" = None /\
  exists w,
    main sample_lib sample_config bare_env (World [] 0) = (Raise AttributeError, w) /\
    upserts (trace w) = [].
Proof.
  assert (Hsame : same_signal (bare_asset "101")
                    (<["signal_id" := VStr "101"]> (sample_row 101)) = true)
    by reflexivity.
  assert (Hmiss : bare_asset "101" !! "location" = None) by reflexivity.
  split; [exact bare_run_ok|]. split; [exact Hsame|]. split; [exact Hmiss|].
  refine (proj2 (proj2 (run_aborts_when_matched_asset_lacks_location
            sample_lib sample_config bare_env bare_values 0
            (<["signal_id" := VStr "101"]> (sample_row 101))
            [] (bare_asset "101") [] bare_run_ok eq_refl eq_refl _ Hsame Hmiss))).
  intros a Ha. apply elem_of_nil in Ha. contradiction.
Defined.

Lemma sample_run_trace :
  Forall (op_ok sample_lib sample_config sample_env sample_values) ops /\
  fst (main sample_lib sample_config sample_env (World [] 0)) = Ok tt /\
  ticks (snd (main sample_lib sample_config sample_env (World [] 0))) = 2.
Proof.
  split; [exact sample_run_ok|].
  rewrite (successful_run_trace sample_lib sample_config sample_env sample_values
             sample_run_ok).
  split; reflexivity.
Defined.

